(** * msgModel: the OpenAI provider adapter and the request signer

    A shallow embedding of [msgmodel/providers/openai.py] (class
    [OpenAIProvider]) together with the parts of the Python runtime the
    adapter relies on (str and bytes, dict, truthiness, [bytes.decode],
    [base64.b64decode], [json.loads]), followed by the properties the
    specification states about them.

    Python values are modelled as they are at run time:
    - [str] is a list of Unicode code points ([list N]);
    - [bytes] is a list of [byte];
    - [dict] is a finite map ([gmap]) from [str] keys;
    - an exception is a value of [pyexn], and a computation that can raise
      lives in the [result] monad. *)

From Stdlib Require Import ZArith NArith Lia DecimalNat.
From Stdlib Require Import Strings.String Strings.Ascii Strings.Byte.
From stdpp Require Import base option list gmap strings.

Set Warnings "-register-all".
Local Open Scope N_scope.

(** ** Python [str] and [bytes] *)

Abbreviation pystr := (list N).
Abbreviation pybytes := (list byte).

(** A string literal of the source, as the list of its code points. *)
Definition lit (s : string) : pystr := Byte.to_N <$> list_byte_of_string s.

(** The line feed of ["\n"]. *)
Definition LF : pystr := [10].

(** [s.startswith(p)] *)
Fixpoint startswith (p s : pystr) : bool :=
  match p, s with
  | [], _ => true
  | _ :: _, [] => false
  | a :: p', b :: s' => (a =? b) && startswith p' s'
  end.

(** [sub in s] for two strings: [sub] occurs as a contiguous run of [s]. *)
Fixpoint str_contains (sub s : pystr) : bool :=
  startswith sub s ||
  match s with
  | [] => false
  | _ :: s' => str_contains sub s'
  end.

(** [a == b] on strings *)
Definition str_eqb (a b : pystr) : bool := bool_decide (a = b).

(** [str.isspace] of one code point: the characters [str.strip()] removes. *)
Definition isspace (c : N) : bool :=
  ((9 <=? c) && (c <=? 13)) || ((28 <=? c) && (c <=? 32)) ||
  (c =? 133) || (c =? 160) || (c =? 5760) ||
  ((8192 <=? c) && (c <=? 8202)) ||
  (c =? 8232) || (c =? 8233) || (c =? 8239) || (c =? 8287) || (c =? 12288).

Fixpoint lstrip (s : pystr) : pystr :=
  match s with
  | [] => []
  | c :: s' => if isspace c then lstrip s' else s
  end.

Definition rstrip (s : pystr) : pystr := reverse (lstrip (reverse s)).

(** [s.strip()] *)
Definition strip (s : pystr) : pystr := rstrip (lstrip s).

(** Decimal and hexadecimal rendering, for the messages of exceptions. *)
Fixpoint uint_digits (d : Decimal.uint) : pystr :=
  match d with
  | Decimal.Nil => []
  | Decimal.D0 d => 48 :: uint_digits d
  | Decimal.D1 d => 49 :: uint_digits d
  | Decimal.D2 d => 50 :: uint_digits d
  | Decimal.D3 d => 51 :: uint_digits d
  | Decimal.D4 d => 52 :: uint_digits d
  | Decimal.D5 d => 53 :: uint_digits d
  | Decimal.D6 d => 54 :: uint_digits d
  | Decimal.D7 d => 55 :: uint_digits d
  | Decimal.D8 d => 56 :: uint_digits d
  | Decimal.D9 d => 57 :: uint_digits d
  end.

Definition str_of_nat (n : nat) : pystr := uint_digits (Nat.to_uint n).

Definition hex_digit (d : N) : N := if d <? 10 then 48 + d else 87 + d.

(** ["%02x"] of one byte *)
Definition hex_byte (b : N) : pystr := [hex_digit (b / 16); hex_digit (b mod 16)].

(** ** Python values *)

(** A [float], kept as the decimal it was written as: [FDec neg m e] is
    the double nearest to (-1)^neg * m * 10^e. *)
Inductive pyfloat :=
| FDec (neg : bool) (m : N) (e : Z)
| FInf (neg : bool)
| FNaN.

Inductive pyval :=
| PNone
| PBool (b : bool)
| PInt (z : Z)
| PFloat (f : pyfloat)
| PStr (s : pystr)
| PList (l : list pyval)
| PDict (d : gmap pystr pyval).

(** A decimal is the double zero when its mantissa is zero or when it is at
    most 2^-1075, half the smallest subnormal (ties go to the even zero). *)
Definition float_is_zero (f : pyfloat) : bool :=
  match f with
  | FDec _ m e =>
      (m =? 0) || ((e <? 0)%Z && (Z.of_N m * 2 ^ 1075 <=? 10 ^ (- e))%Z)
  | FInf _ | FNaN => false
  end.

(** Truth value testing: [if v:] *)
Definition truthy (v : pyval) : bool :=
  match v with
  | PNone => false
  | PBool b => b
  | PInt z => negb (z =? 0)%Z
  | PFloat f => negb (float_is_zero f)
  | PStr s => negb (bool_decide (s = []))
  | PList l => negb (Nat.eqb (length l) 0)
  | PDict d => negb (Nat.eqb (size d) 0)
  end.

(** A dict display [{k1: v1, k2: v2, ...}]: entries are stored left to right. *)
Definition py_dict {A} (kvs : list (pystr * A)) : gmap pystr A :=
  foldl (λ d kv, <[kv.1 := kv.2]> d) ∅ kvs.

(** [d.get(k, dflt)] *)
Definition dict_get {A} (d : gmap pystr A) (k : pystr) (dflt : A) : A :=
  default dflt (d !! k).

(** ** Exceptions and the [result] monad *)

Inductive pyexn :=
| KeyError (key : pystr)
| TypeError (msg : pystr)
| UnicodeDecodeError (msg : pystr)
| ValueError (msg : pystr)
| RecursionError (msg : pystr)
| StopIteration
| JSONDecodeError
| RequestException (msg : pystr)
| APIError (msg : pystr) (status_code : option Z) (response_text : option pystr)
| StreamingError (msg : pystr).

Inductive result (A : Type) :=
| Ok (a : A)
| Raise (e : pyexn).
Arguments Ok {A} a.
Arguments Raise {A} e.

Global Instance result_ret : MRet result := λ A a, Ok a.
Global Instance result_bind : MBind result := λ A B f m,
  match m with
  | Ok a => f a
  | Raise e => Raise e
  end.

(** [d[k]] *)
Definition dict_getitem {A} (d : gmap pystr A) (k : pystr) : result A :=
  match d !! k with
  | Some v => Ok v
  | None => Raise (KeyError k)
  end.

(** ** [bytes.decode("utf-8", ...)]

    The decoder cuts its input into well-formed sequences and ill-formed
    runs, as CPython's [utf8_decode] does: an ill-formed run is a lead byte
    with the continuation bytes accepted so far.  [errors="strict"] raises
    at the first ill-formed run, [errors="ignore"] drops every one. *)

Inductive utf8_reason := InvalidStart | InvalidContinuation | UnexpectedEnd.

Inductive utf8_item :=
| U8Char (cp : N) (len : nat)
| U8Bad (len : nat) (why : utf8_reason).

Definition is_cont (b : N) : bool := (128 <=? b) && (b <=? 191).

Definition cont_bits (b : N) : N := N.land b 63.

Fixpoint utf8_scan (s : pybytes) : list utf8_item :=
  match s with
  | [] => []
  | c1 :: s1 =>
    let ch := Byte.to_N c1 in
    if ch <? 128 then U8Char ch 1 :: utf8_scan s1
    else if ch <? 194 then U8Bad 1 InvalidStart :: utf8_scan s1
    else if ch <? 224 then
      match s1 with
      | [] => [U8Bad 1 UnexpectedEnd]
      | c2 :: s2 =>
        let ch2 := Byte.to_N c2 in
        if is_cont ch2
        then U8Char (N.shiftl (N.land ch 31) 6 + cont_bits ch2) 2 :: utf8_scan s2
        else U8Bad 1 InvalidContinuation :: utf8_scan s1
      end
    else if ch <? 240 then
      match s1 with
      | [] => [U8Bad 1 UnexpectedEnd]
      | c2 :: s2 =>
        let ch2 := Byte.to_N c2 in
        if negb (is_cont ch2) || (if ch2 <? 160 then ch =? 224 else ch =? 237)
        then U8Bad 1 InvalidContinuation :: utf8_scan s1
        else
          match s2 with
          | [] => [U8Bad 2 UnexpectedEnd]
          | c3 :: s3 =>
            let ch3 := Byte.to_N c3 in
            if is_cont ch3
            then U8Char (N.shiftl (N.land ch 15) 12 + N.shiftl (cont_bits ch2) 6
                         + cont_bits ch3) 3 :: utf8_scan s3
            else U8Bad 2 InvalidContinuation :: utf8_scan s2
          end
      end
    else if ch <? 245 then
      match s1 with
      | [] => [U8Bad 1 UnexpectedEnd]
      | c2 :: s2 =>
        let ch2 := Byte.to_N c2 in
        if negb (is_cont ch2) || (if ch2 <? 144 then ch =? 240 else ch =? 244)
        then U8Bad 1 InvalidContinuation :: utf8_scan s1
        else
          match s2 with
          | [] => [U8Bad 2 UnexpectedEnd]
          | c3 :: s3 =>
            let ch3 := Byte.to_N c3 in
            if negb (is_cont ch3)
            then U8Bad 2 InvalidContinuation :: utf8_scan s2
            else
              match s3 with
              | [] => [U8Bad 3 UnexpectedEnd]
              | c4 :: s4 =>
                let ch4 := Byte.to_N c4 in
                if is_cont ch4
                then U8Char (N.shiftl (N.land ch 7) 18 + N.shiftl (cont_bits ch2) 12
                             + N.shiftl (cont_bits ch3) 6 + cont_bits ch4) 4
                     :: utf8_scan s4
                else U8Bad 3 InvalidContinuation :: utf8_scan s3
              end
          end
      end
    else U8Bad 1 InvalidStart :: utf8_scan s1
  end.

(** [b.decode("utf-8", errors="ignore")] *)
Fixpoint decode_ignore_items (items : list utf8_item) : pystr :=
  match items with
  | [] => []
  | U8Char cp _ :: rest => cp :: decode_ignore_items rest
  | U8Bad _ _ :: rest => decode_ignore_items rest
  end.

Definition decode_utf8_ignore (b : pybytes) : pystr :=
  decode_ignore_items (utf8_scan b).

Definition utf8_reason_str (why : utf8_reason) : pystr :=
  match why with
  | InvalidStart => lit "invalid start byte"
  | InvalidContinuation => lit "invalid continuation byte"
  | UnexpectedEnd => lit "unexpected end of data"
  end.

(** [str(e)] of the [UnicodeDecodeError] for the run of [len] bytes at [pos] *)
Definition unicode_error_msg (b : pybytes) (pos len : nat) (why : utf8_reason) : pystr :=
  match len with
  | 1%nat =>
      lit "'utf-8' codec can't decode byte 0x"
      ++ hex_byte (default 0 (Byte.to_N <$> b !! pos))
      ++ lit " in position " ++ str_of_nat pos ++ lit ": " ++ utf8_reason_str why
  | _ =>
      lit "'utf-8' codec can't decode bytes in position " ++ str_of_nat pos
      ++ lit "-" ++ str_of_nat (pos + len - 1) ++ lit ": " ++ utf8_reason_str why
  end.

Fixpoint decode_strict_items (b : pybytes) (pos : nat) (items : list utf8_item)
  : result pystr :=
  match items with
  | [] => Ok []
  | U8Char cp len :: rest =>
      match decode_strict_items b (pos + len) rest with
      | Ok s => Ok (cp :: s)
      | Raise e => Raise e
      end
  | U8Bad len why :: _ => Raise (UnicodeDecodeError (unicode_error_msg b pos len why))
  end.

(** [b.decode("utf-8")] *)
Definition decode_utf8 (b : pybytes) : result pystr :=
  decode_strict_items b 0 (utf8_scan b).

(** ** [base64.b64decode(s)] for a [str] argument

    [validate] is off: characters outside the alphabet are discarded, and
    decoding stops at the padding that completes a quad.  [None] stands for
    the exception raised ([ValueError] for a non-ASCII character,
    [binascii.Error] for a wrong length or padding). *)

Definition b64_value (c : N) : option N :=
  if (65 <=? c) && (c <=? 90) then Some (c - 65)
  else if (97 <=? c) && (c <=? 122) then Some (c - 71)
  else if (48 <=? c) && (c <=? 57) then Some (c + 4)
  else if c =? 43 then Some 62
  else if c =? 47 then Some 63
  else None.

Definition byte_of_N (n : N) : byte := default x00 (Byte.of_N (n mod 256)).

Fixpoint a2b_base64 (s : pystr) (quad_pos : nat) (leftchar : N) (pads : nat)
  : option pybytes :=
  match s with
  | [] => if Nat.eqb quad_pos 0 then Some [] else None
  | c :: s' =>
    if c =? 61 then
      if Nat.leb 2 quad_pos && Nat.leb 4 (quad_pos + S pads) then Some []
      else a2b_base64 s' quad_pos leftchar (if Nat.leb 2 quad_pos then S pads else pads)
    else
      match b64_value c with
      | None => a2b_base64 s' quad_pos leftchar pads
      | Some v =>
        match quad_pos with
        | 0%nat => a2b_base64 s' 1 v 0
        | 1%nat =>
            cons (byte_of_N (N.lor (N.shiftl leftchar 2) (N.shiftr v 4)))
              <$> a2b_base64 s' 2 (N.land v 15) 0
        | 2%nat =>
            cons (byte_of_N (N.lor (N.shiftl leftchar 4) (N.shiftr v 2)))
              <$> a2b_base64 s' 3 (N.land v 3) 0
        | _ =>
            cons (byte_of_N (N.lor (N.shiftl leftchar 6) v))
              <$> a2b_base64 s' 0 0 0
        end
      end
  end.

Definition b64decode (s : pystr) : option pybytes :=
  if forallb (λ c, c <? 128) s then a2b_base64 s 0 0 0 else None.

(** ** [json.loads(s)] for a [str] argument

    The scanner of CPython's [json] module.  Malformed text raises
    [JSONDecodeError]; an integer literal of more than 4300 digits raises
    [ValueError] instead (the interpreter's limit on int conversion).

    The scanner is also subject to the interpreter's recursion limit.
    [depth] is the number of recursive calls the interpreter still allows
    when the scanner starts, that is, what the frames around the call of
    [json.loads] and the three calls by which [json.loads] reaches its
    scanner have left.  The scanner takes one call for each array or object
    it has open; the constants [NaN], [Infinity] and [-Infinity] need one
    call, and raising [JSONDecodeError] needs three, since it runs Python
    code.  Where the calls left do not suffice, [RecursionError] is raised.
    The accounting is that of CPython 3.11. *)

Definition json_ws (c : N) : bool := (c =? 32) || (c =? 9) || (c =? 10) || (c =? 13).

Fixpoint skip_ws (s : pystr) : pystr :=
  match s with
  | [] => []
  | c :: s' => if json_ws c then skip_ws s' else s
  end.

Definition is_digit (c : N) : bool := (48 <=? c) && (c <=? 57).

Definition hex_value (c : N) : option N :=
  if is_digit c then Some (c - 48)
  else if (97 <=? c) && (c <=? 102) then Some (c - 87)
  else if (65 <=? c) && (c <=? 70) then Some (c - 55)
  else None.

Definition hex4 (a b c d : N) : option N :=
  a' ← hex_value a; b' ← hex_value b; c' ← hex_value c; d' ← hex_value d;
  Some (((a' * 16 + b') * 16 + c') * 16 + d').

Definition is_high_surrogate (c : N) : bool := (55296 <=? c) && (c <=? 56319).
Definition is_low_surrogate (c : N) : bool := (56320 <=? c) && (c <=? 57343).
Definition join_surrogates (hi lo : N) : N :=
  65536 + N.lor (N.shiftl (N.land hi 1023) 10) (N.land lo 1023).

Definition simple_escape (c : N) : option N :=
  if c =? 34 then Some 34          (* quote *)
  else if c =? 92 then Some 92     (* backslash *)
  else if c =? 47 then Some 47     (* slash *)
  else if c =? 98 then Some 8      (* b: backspace *)
  else if c =? 102 then Some 12    (* f: form feed *)
  else if c =? 110 then Some 10    (* n: line feed *)
  else if c =? 114 then Some 13    (* r: carriage return *)
  else if c =? 116 then Some 9     (* t: tab *)
  else None.

(** The body of a string, from after its opening quote: the decoded text
    and what follows the closing quote. *)
Fixpoint scanstring (s : pystr) : option (pystr * pystr) :=
  match s with
  | [] => None
  | c :: s1 =>
    if c =? 34 then Some ([], s1)
    else if c =? 92 then
      match s1 with
      | [] => None
      | e :: s2 =>
        if e =? 117 then
          match s2 with
          | h1 :: h2 :: h3 :: h4 :: s6 =>
            match hex4 h1 h2 h3 h4 with
            | None => None
            | Some cu =>
              match s6 with
              | b :: u :: g1 :: g2 :: g3 :: g4 :: s12 =>
                if is_high_surrogate cu && (b =? 92) && (u =? 117) then
                  match hex4 g1 g2 g3 g4 with
                  | None => None
                  | Some cu2 =>
                    if is_low_surrogate cu2
                    then prod_map (cons (join_surrogates cu cu2)) id <$> scanstring s12
                    else prod_map (cons cu) id <$> scanstring s6
                  end
                else prod_map (cons cu) id <$> scanstring s6
              | _ => prod_map (cons cu) id <$> scanstring s6
              end
            end
          | _ => None
          end
        else
          match simple_escape e with
          | None => None
          | Some ch => prod_map (cons ch) id <$> scanstring s2
          end
      end
    else if c <=? 31 then None
    else prod_map (cons c) id <$> scanstring s1
  end.

Fixpoint take_digits (s : pystr) : pystr * pystr :=
  match s with
  | [] => ([], [])
  | c :: s' =>
    if is_digit c then prod_map (cons c) id (take_digits s') else ([], s)
  end.

(** The number a run of decimal digits denotes *)
Definition digits_value (ds : pystr) : N := foldl (λ acc d, acc * 10 + (d - 48)) 0 ds.

(** The integer part of a number: digits not starting with 0, or a single 0 *)
Definition take_int_part (s : pystr) : option (pystr * pystr) :=
  match s with
  | c :: s' =>
    if (49 <=? c) && (c <=? 57) then Some (prod_map (cons c) id (take_digits s'))
    else if c =? 48 then Some ([c], s')
    else None
  | [] => None
  end.

(** A fraction is read only when a digit follows the point. *)
Definition take_frac_part (s : pystr) : pystr * pystr :=
  match s with
  | p :: d :: s' =>
    if (p =? 46) && is_digit d then prod_map (cons d) id (take_digits s') else ([], s)
  | _ => ([], s)
  end.

(** An exponent is read only when it has a digit; otherwise the scanner
    backs up to before the [e]. *)
Definition take_exp_part (s : pystr) : option Z * pystr :=
  match s with
  | e :: s1 =>
    if (e =? 101) || (e =? 69) then
      let '(neg, s2) :=
        match s1 with
        | sg :: (_ :: _) as s2 =>
          if sg =? 45 then (true, s2) else if sg =? 43 then (false, s2) else (false, s1)
        | _ => (false, s1)
        end in
      match take_digits s2 with
      | ([], _) => (None, s)
      | (ds, rest) =>
        let v := Z.of_N (digits_value ds) in
        (Some (if neg then (- v)%Z else v), rest)
      end
    else (None, s)
  | [] => (None, s)
  end.

Definition int_limit_msg (ndigits : nat) : pystr :=
  lit "Exceeds the limit (4300 digits) for integer string conversion: value has "
  ++ str_of_nat ndigits
  ++ lit " digits; use sys.set_int_max_str_digits() to increase the limit".

Definition match_number (s : pystr) : result (pyval * pystr) :=
  let '(neg, s0) :=
    match s with
    | c :: s' => if c =? 45 then (true, s') else (false, s)
    | [] => (false, s)
    end in
  match take_int_part s0 with
  | None => Raise StopIteration
  | Some (ip, s1) =>
    let '(fp, s2) := take_frac_part s1 in
    let '(ex, s3) := take_exp_part s2 in
    match fp, ex with
    | [], None =>
      if Nat.ltb 4300 (length ip) then Raise (ValueError (int_limit_msg (length ip)))
      else
        let v := Z.of_N (digits_value ip) in
        Ok (PInt (if neg then (- v)%Z else v), s3)
    | _, _ =>
      Ok (PFloat (FDec neg (digits_value (ip ++ fp))
                     (default 0%Z ex - Z.of_nat (length fp))), s3)
    end
  end.

(** [str(e)] of a [RecursionError]; [doing] is what the interpreter was
    doing, if it says. *)
Definition recursion_msg (doing : pystr) : pystr :=
  lit "maximum recursion depth exceeded" ++ doing.

Definition calling_object : pystr := lit " while calling a Python object".
Definition decoding_object : pystr :=
  lit " while decoding a JSON object from a unicode string".
Definition decoding_array : pystr :=
  lit " while decoding a JSON array from a unicode string".

(** What [raise JSONDecodeError(...)] raises with [left] recursive calls
    left: the call of the class takes one, the frame of its [__init__] a
    second, and the calls that [__init__] makes a third. *)
Definition decode_error (left : nat) : pyexn :=
  match left with
  | 0%nat => RecursionError (recursion_msg calling_object)
  | 1%nat => RecursionError (recursion_msg [])
  | 2%nat => RecursionError (recursion_msg calling_object)
  | _ => JSONDecodeError
  end.

(** [NaN], [Infinity] and [-Infinity] are looked up by a call of
    [parse_constant]. *)
Definition parse_constant (depth : nat) (v : pyfloat) (rest : pystr)
  : result (pyval * pystr) :=
  match depth with
  | O => Raise (RecursionError (recursion_msg calling_object))
  | S _ => Ok (PFloat v, rest)
  end.

(** The scanner.  Where no value starts it raises [StopIteration], which
    [json.loads] turns into [JSONDecodeError] after the scanner has
    returned; its other errors are raised as [JSONDecodeError] on the spot,
    with the calls left there.  Opening an object or an array takes one
    call before anything of the container is read, and gives it back when
    the container is closed. *)
Fixpoint scan_once (fuel depth : nat) (s : pystr) : result (pyval * pystr) :=
  match fuel with
  | O => Raise StopIteration
  | S fuel' =>
    match s with
    | [] => Raise StopIteration
    | c :: s' =>
      if c =? 34 then
        match scanstring s' with
        | Some (str, rest) => Ok (PStr str, rest)
        | None => Raise (decode_error depth)
        end
      else if c =? 123 then
        match depth with
        | O => Raise (RecursionError (recursion_msg decoding_object))
        | S depth' =>
          match skip_ws s' with
          | c' :: rest =>
            if c' =? 125 then Ok (PDict ∅, rest)
            else parse_object_items fuel' depth' (c' :: rest) ∅
          | [] => Raise (decode_error depth')
          end
        end
      else if c =? 91 then
        match depth with
        | O => Raise (RecursionError (recursion_msg decoding_array))
        | S depth' =>
          match skip_ws s' with
          | c' :: rest =>
            if c' =? 93 then Ok (PList [], rest)
            else parse_array_items fuel' depth' (c' :: rest) []
          | [] => Raise StopIteration
          end
        end
      else if startswith (lit "null") s then Ok (PNone, drop 4 s)
      else if startswith (lit "true") s then Ok (PBool true, drop 4 s)
      else if startswith (lit "false") s then Ok (PBool false, drop 5 s)
      else if startswith (lit "NaN") s then parse_constant depth FNaN (drop 3 s)
      else if startswith (lit "Infinity") s
      then parse_constant depth (FInf false) (drop 8 s)
      else if startswith (lit "-Infinity") s
      then parse_constant depth (FInf true) (drop 9 s)
      else match_number s
    end
  end
with parse_array_items (fuel depth : nat) (s : pystr) (acc : list pyval)
  : result (pyval * pystr) :=
  match fuel with
  | O => Raise StopIteration
  | S fuel' =>
    match scan_once fuel' depth s with
    | Raise e => Raise e
    | Ok (v, s1) =>
      match skip_ws s1 with
      | c :: s2 =>
        if c =? 93 then Ok (PList (acc ++ [v]), s2)
        else if c =? 44 then parse_array_items fuel' depth (skip_ws s2) (acc ++ [v])
        else Raise (decode_error depth)
      | [] => Raise (decode_error depth)
      end
    end
  end
with parse_object_items (fuel depth : nat) (s : pystr) (acc : gmap pystr pyval)
  : result (pyval * pystr) :=
  match fuel with
  | O => Raise StopIteration
  | S fuel' =>
    match s with
    | q :: s0 =>
      if q =? 34 then
        match scanstring s0 with
        | None => Raise (decode_error depth)
        | Some (key, s1) =>
          match skip_ws s1 with
          | colon :: s2 =>
            if colon =? 58 then
              match scan_once fuel' depth (skip_ws s2) with
              | Raise e => Raise e
              | Ok (v, s3) =>
                match skip_ws s3 with
                | c :: s4 =>
                  if c =? 125 then Ok (PDict (<[key := v]> acc), s4)
                  else if c =? 44
                  then parse_object_items fuel' depth (skip_ws s4) (<[key := v]> acc)
                  else Raise (decode_error depth)
                | [] => Raise (decode_error depth)
                end
              end
            else Raise (decode_error depth)
          | [] => Raise (decode_error depth)
          end
        end
      else Raise (decode_error depth)
    | [] => Raise (decode_error depth)
    end
  end.

(** [json.loads(s)]: a byte order mark is refused first; leading and
    trailing white space is allowed, anything else after the value is an
    error.  The three errors are raised by the Python code of the module,
    which runs three, one and two calls above the scanner. *)
Definition json_loads (depth : nat) (s : pystr) : result pyval :=
  if startswith [65279] s then Raise (decode_error (3 + depth))
  else
    match scan_once (2 * length s + 1) depth (skip_ws s) with
    | Raise StopIteration => Raise (decode_error (1 + depth))
    | Raise e => Raise e
    | Ok (v, rest) =>
      match skip_ws rest with
      | [] => Ok v
      | _ :: _ => Raise (decode_error (2 + depth))
      end
    end.

(** ** Operations on values the adapter uses *)

(** [type(v).__name__] *)
Definition type_name (v : pyval) : pystr :=
  match v with
  | PNone => lit "NoneType"
  | PBool _ => lit "bool"
  | PInt _ => lit "int"
  | PFloat _ => lit "float"
  | PStr _ => lit "str"
  | PList _ => lit "list"
  | PDict _ => lit "dict"
  end.

(** [k in v] for a string [k]: key membership in a dict, element equality
    in a list, substring test in a string; other types are not iterable. *)
Definition py_contains (k : pystr) (v : pyval) : result bool :=
  match v with
  | PDict d => Ok (bool_decide (is_Some (d !! k)))
  | PList l =>
      Ok (existsb (λ x, match x with PStr s => str_eqb s k | _ => false end) l)
  | PStr s => Ok (str_contains k s)
  | _ =>
      Raise (TypeError (lit "argument of type '" ++ type_name v
                        ++ lit "' is not iterable"))
  end.

(** [v[k]] for a string [k] *)
Definition py_getitem (v : pyval) (k : pystr) : result pyval :=
  match v with
  | PDict d => dict_getitem d k
  | PStr _ => Raise (TypeError (lit "string indices must be integers, not 'str'"))
  | PList _ => Raise (TypeError (lit "list indices must be integers or slices, not str"))
  | _ => Raise (TypeError (lit "'" ++ type_name v ++ lit "' object is not subscriptable"))
  end.

(** [str(e)], for the exceptions whose message the model carries.  The
    others never reach a handler that formats them. *)
Definition exn_str (e : pyexn) : pystr :=
  match e with
  | TypeError msg | UnicodeDecodeError msg | ValueError msg | RecursionError msg
  | RequestException msg | APIError msg _ _ | StreamingError msg => msg
  | KeyError _ | StopIteration | JSONDecodeError => []
  end.

(** ** The HTTP boundary ([requests]) *)

Record Request := {
  req_url : pystr;
  req_headers : gmap pystr pystr;
  req_data : gmap pystr pyval;      (* the payload [json.dumps] serialises *)
  req_stream : bool
}.

(** A response: its status, its body, and for a streamed body the lines
    [iter_lines] delivers, after which the connection may break with an
    error ([broken]). *)
Record Response := {
  status_code : Z;
  text : pystr;
  lines : list pybytes;
  broken : option pystr
}.

(** [response.ok]: the status is not a 4xx or 5xx one. *)
Definition ok (r : Response) : bool :=
  negb ((400 <=? status_code r)%Z && (status_code r <? 600)%Z).

(** [response.json()]: the body goes to [json.loads], whose scanner starts
    with [depth] recursive calls left. *)
Definition json (depth : nat) (r : Response) : result pyval :=
  json_loads depth (text r).

(** What [requests.post] does: raise a [RequestException] ([str(e)] is
    kept) or return a response. *)
Inductive PostOutcome :=
| PostRaises (e : pystr)
| PostReturns (r : Response).

(** ** [msgmodel.providers.openai] *)

Definition MIME_TYPE_JSON : pystr := lit "application/json".

(** The attributes of [OpenAIConfig] the adapter reads. *)
Record OpenAIConfig := {
  model : pystr;
  max_tokens : pyval;
  temperature : pyval;
  top_p : pyval
}.

Record OpenAIProvider := {
  api_key : pystr;
  config : OpenAIConfig
}.

Definition _build_headers (self : OpenAIProvider) : gmap pystr pystr :=
  py_dict [ (lit "Content-Type", MIME_TYPE_JSON);
            (lit "Authorization", lit "Bearer " ++ api_key self);
            (lit "X-OpenAI-No-Store", lit "true") ].

(** The content blocks of the adapter *)
Definition text_block (t : pystr) : pyval :=
  PDict (py_dict [ (lit "type", PStr (lit "text")); (lit "text", PStr t) ]).

Definition image_block (url : pystr) : pyval :=
  PDict (py_dict [ (lit "type", PStr (lit "image_url"));
                   (lit "image_url", PDict (py_dict [ (lit "url", PStr url) ])) ]).

Definition contents_text (filename decoded_text : pystr) : pystr :=
  lit "(Contents of " ++ filename ++ lit "):" ++ LF ++ LF ++ decoded_text.

Definition data_uri (mime_type encoded_data : pystr) : pystr :=
  lit "data:" ++ mime_type ++ lit ";base64," ++ encoded_data.

Definition note_text (filename mime_type : pystr) : pystr :=
  lit "[Note: A file named '" ++ filename ++ lit "' with MIME type '" ++ mime_type
  ++ lit "' was provided. You may not be able to read it directly, but you "
  ++ lit "can still respond based on the description and prompt.]".

(** [base64.b64decode(encoded_data).decode("utf-8", errors="ignore")] under
    [try ... except Exception: decoded_text = ""] *)
Definition decode_attachment (encoded_data : pystr) : pystr :=
  match b64decode encoded_data with
  | Some raw => decode_utf8_ignore raw
  | None => []
  end.

(** The blocks an attachment contributes *)
Definition attachment_blocks (file_data : gmap pystr pystr) : result (list pyval) :=
  mime_type ← dict_getitem file_data (lit "mime_type");
  let encoded_data := dict_get file_data (lit "data") (lit "") in
  let filename := dict_get file_data (lit "filename") (lit "input.bin") in
  if startswith (lit "image/") mime_type then
    mret [image_block (data_uri mime_type encoded_data)]
  else if startswith (lit "text/") mime_type then
    let decoded_text := decode_attachment encoded_data in
    if truthy (PStr (strip decoded_text))
    then mret [text_block (contents_text filename decoded_text)]
    else mret []
  else
    mret [text_block (note_text filename mime_type)].

(** [if file_data:] is false for [None] and for the empty dict. *)
Definition _build_content (prompt : pystr) (file_data : option (gmap pystr pystr))
  : result (list pyval) :=
  content ←
    match file_data with
    | Some fd => if negb (Nat.eqb (size fd) 0) then attachment_blocks fd else mret []
    | None => mret []
    end;
  mret (content ++ [text_block prompt]).

Definition _build_payload (self : OpenAIProvider) (prompt : pystr)
    (system_instruction : option pystr) (file_data : option (gmap pystr pystr))
    (stream : bool) : result (gmap pystr pyval) :=
  content ← _build_content prompt file_data;
  let messages :=
    match system_instruction with
    | Some si =>
      if truthy (PStr si)
      then [PDict (py_dict [ (lit "role", PStr (lit "system")); (lit "content", PStr si) ])]
      else []
    | None => []
    end
    ++ [PDict (py_dict [ (lit "role", PStr (lit "user")); (lit "content", PList content) ])] in
  let payload :=
    py_dict [ (lit "model", PStr (model (config self)));
              (lit "messages", PList messages);
              (lit "max_tokens", max_tokens (config self));
              (lit "temperature", temperature (config self));
              (lit "top_p", top_p (config self)) ] in
  mret (if stream then <[lit "stream" := PBool true]> payload else payload).

(** The text of one choice of a streamed chunk, when it is a dict whose
    [delta] is a dict with a true [content]. *)
Definition choice_delta_text (choice : pyval) : option pyval :=
  match choice with
  | PDict c =>
    match dict_get c (lit "delta") (PDict ∅) with
    | PDict delta =>
      let text := dict_get delta (lit "content") (PStr (lit "")) in
      if truthy text then Some text else None
    | _ => None
    end
  | _ => None
  end.

(** The texts one decoded chunk yields, in order. *)
Definition chunk_texts (chunk : pyval) : result (list pyval) :=
  has_choices ← py_contains (lit "choices") chunk;
  if (has_choices : bool) then
    choices ← py_getitem chunk (lit "choices");
    match choices with
    | PList cs => mret (omap choice_delta_text cs)
    | _ => mret []
    end
  else mret [].

(** One turn of the [for line in response.iter_lines()] loop.  [depth] is
    the number of recursive calls left to the scanner of [json.loads] when
    the payload of the line is parsed. *)
Inductive line_step :=
| Continue (texts : list pyval)
| Break
| Fail (e : pyexn).

Definition process_line (depth : nat) (line : pybytes) : line_step :=
  if negb (Nat.eqb (length line) 0) then
    match decode_utf8 line with
    | Raise e => Fail e
    | Ok line_text =>
      if startswith (lit "data: ") line_text then
        let data := drop 6 line_text in
        if str_eqb data (lit "[DONE]") then Break
        else
          match json_loads depth data ≫= chunk_texts with
          | Ok texts => Continue texts
          | Raise JSONDecodeError => Continue []
          | Raise e => Fail e
          end
      else Continue []
    end
  else Continue [].

(** The loop: the texts yielded, and how it ends, with the exception that
    escapes it or with [chunks_received].  Every line is parsed with the
    same [depth]: the generator is resumed from one frame, as a [for] loop
    over it does. *)
Fixpoint stream_loop (depth : nat) (lines : list pybytes) (broken : option pystr)
    (chunks_received : nat) : list pyval * (pyexn + nat) :=
  match lines with
  | [] =>
    match broken with
    | Some e => ([], inl (RequestException e))
    | None => ([], inr chunks_received)
    end
  | line :: rest =>
    match process_line depth line with
    | Continue texts =>
      let '(more, fin) :=
        stream_loop depth rest broken (chunks_received + length texts) in
      (texts ++ more, fin)
    | Break => ([], inr chunks_received)
    | Fail e => ([], inl e)
    end
  end.

Inductive log_level := ERROR.

Definition empty_stream_message : pystr :=
  lit "No text chunks extracted from streaming response. Response format may not match OpenAI Chat Completions delta structure or stream may have ended prematurely.".

(** What a consumer that exhausts the generator of [stream] observes. *)
Record StreamRun := {
  sent : list Request;
  yielded : list pyval;
  logged : list (log_level * pystr);
  raised : option pyexn
}.

(** The content of one choice of a response, when it is a dict whose
    [message] is a dict with a true [content]. *)
Definition choice_message_content (choice : pyval) : option pyval :=
  match choice with
  | PDict c =>
    match dict_get c (lit "message") (PDict ∅) with
    | PDict message =>
      let content := dict_get message (lit "content") (PStr (lit "")) in
      if truthy content then Some content else None
    | _ => None
    end
  | _ => None
  end.

(** [for choice in response["choices"]: ... return content] *)
Fixpoint first_content (choices : list pyval) : option pyval :=
  match choices with
  | [] => None
  | choice :: rest =>
    match choice_message_content choice with
    | Some content => Some content
    | None => first_content rest
    end
  end.

Definition extract_text (response : gmap pystr pyval) : pyval :=
  match response !! lit "choices" with
  | Some (PList choices) => default (PStr (lit "")) (first_content choices)
  | _ => PStr (lit "")
  end.

Section Provider.

(** [OPENAI_URL] of [msgmodel.config], and the network. *)
Variable OPENAI_URL : pystr.
Variable requests_post : Request → PostOutcome.

Definition api_error (response : Response) : pyexn :=
  APIError (lit "OpenAI API error: " ++ text response)
           (Some (status_code response)) (Some (text response)).

(** [query]: the requests sent, and the value returned or the exception
    raised.  [depth] is the recursion depth left where the body of the
    response is parsed, here and in [stream]. *)
Definition query (depth : nat) (self : OpenAIProvider) (prompt : pystr)
    (system_instruction : option pystr) (file_data : option (gmap pystr pystr))
  : list Request * result pyval :=
  match _build_payload self prompt system_instruction file_data false with
  | Raise e => ([], Raise e)
  | Ok payload =>
    let headers := _build_headers self in
    let request :=
      {| req_url := OPENAI_URL; req_headers := headers;
         req_data := payload; req_stream := false |} in
    ([request],
     match requests_post request with
     | PostRaises e => Raise (APIError (lit "Request failed: " ++ e) None None)
     | PostReturns response =>
       if negb (ok response) then Raise (api_error response)
       else json depth response
     end)
  end.

Definition stream (depth : nat) (self : OpenAIProvider) (prompt : pystr)
    (system_instruction : option pystr) (file_data : option (gmap pystr pystr))
  : StreamRun :=
  match _build_payload self prompt system_instruction file_data true with
  | Raise e => {| sent := []; yielded := []; logged := []; raised := Some e |}
  | Ok payload =>
    let headers := _build_headers self in
    let request :=
      {| req_url := OPENAI_URL; req_headers := headers;
         req_data := payload; req_stream := true |} in
    match requests_post request with
    | PostRaises e =>
      {| sent := [request]; yielded := []; logged := [];
         raised := Some (APIError (lit "Request failed: " ++ e) None None) |}
    | PostReturns response =>
      if negb (ok response) then
        {| sent := [request]; yielded := []; logged := [];
           raised := Some (api_error response) |}
      else
        match stream_loop depth (lines response) (broken response) 0 with
        | (texts, inr chunks_received) =>
          {| sent := [request]; yielded := texts;
             logged := if Nat.eqb chunks_received 0
                       then [(ERROR, empty_stream_message)] else [];
             raised := None |}
        | (texts, inl e) =>
          {| sent := [request]; yielded := texts; logged := [];
             raised := Some (StreamingError (lit "Streaming interrupted: " ++ exn_str e)) |}
        end
    end
  end.

End Provider.

(** ** SHA-256 and HMAC

    The hash of FIPS 180-4 on 32-bit words kept in [Z], and the keyed hash
    of RFC 2104 over it.  A digest is the 256-bit number whose big-endian
    bytes are the 32 bytes of the digest. *)

Module Sha256.
Local Open Scope Z_scope.

Definition wrap32 (x : Z) : Z := x mod 2 ^ 32.

Definition rotr (n x : Z) : Z :=
  Z.lor (Z.shiftr x n) (wrap32 (Z.shiftl x (32 - n))).

Definition Ch (x y z : Z) : Z :=
  Z.lxor (Z.land x y) (Z.land (Z.lxor x (2 ^ 32 - 1)) z).

Definition Maj (x y z : Z) : Z :=
  Z.lxor (Z.lxor (Z.land x y) (Z.land x z)) (Z.land y z).

Definition big_sigma0 (x : Z) : Z := Z.lxor (Z.lxor (rotr 2 x) (rotr 13 x)) (rotr 22 x).
Definition big_sigma1 (x : Z) : Z := Z.lxor (Z.lxor (rotr 6 x) (rotr 11 x)) (rotr 25 x).
Definition small_sigma0 (x : Z) : Z := Z.lxor (Z.lxor (rotr 7 x) (rotr 18 x)) (Z.shiftr x 3).
Definition small_sigma1 (x : Z) : Z := Z.lxor (Z.lxor (rotr 17 x) (rotr 19 x)) (Z.shiftr x 10).

(** The largest [r] with [r^3 <= n], by bisection on [lo, hi]. *)
Fixpoint cube_root (fuel : nat) (lo hi n : Z) : Z :=
  match fuel with
  | O => lo
  | S fuel' =>
    if hi <=? lo then lo
    else
      let mid := (lo + hi + 1) / 2 in
      if mid * mid * mid <=? n then cube_root fuel' mid hi n
      else cube_root fuel' lo (mid - 1) n
  end.

Definition first_primes : list Z :=
  [ 2; 3; 5; 7; 11; 13; 17; 19; 23; 29; 31; 37; 41; 43; 47; 53;
    59; 61; 67; 71; 73; 79; 83; 89; 97; 101; 103; 107; 109; 113; 127; 131;
    137; 139; 149; 151; 157; 163; 167; 173; 179; 181; 191; 193; 197; 199;
    211; 223; 227; 229; 233; 239; 241; 251; 257; 263; 269; 271; 277; 281;
    283; 293; 307; 311 ].

(** The round constants: the first 32 bits of the fractional parts of the
    cube roots of the first 64 primes. *)
Definition K : list Z :=
  Eval vm_compute in
    (λ p, wrap32 (cube_root 40 0 (2 ^ 36) (p * 2 ^ 96))) <$> first_primes.

(** The initial hash value: the same of the square roots of the first 8. *)
Definition H0 : list Z :=
  Eval vm_compute in
    (λ p, wrap32 (Z.sqrt (p * 2 ^ 64))) <$> take 8 first_primes.

(** The [n] big-endian bytes of [x] *)
Fixpoint be_bytes (n : nat) (x : Z) : list Z :=
  match n with
  | O => []
  | S n' => (x / 256 ^ Z.of_nat n') mod 256 :: be_bytes n' x
  end.

(** Padding: a 1 bit, zeros up to 56 modulo 64, the length in bits. *)
Definition pad (msg : list Z) : list Z :=
  let l := Z.of_nat (length msg) in
  msg ++ [128] ++ replicate (Z.to_nat ((55 - l) mod 64)) 0 ++ be_bytes 8 (8 * l).

Fixpoint be_words (bs : list Z) : list Z :=
  match bs with
  | a :: b :: c :: d :: rest => ((a * 256 + b) * 256 + c) * 256 + d :: be_words rest
  | _ => []
  end.

Fixpoint blocks (n : nat) (ws : list Z) : list (list Z) :=
  match n with
  | O => []
  | S n' => take 16 ws :: blocks n' (drop 16 ws)
  end.

(** The message schedule: 16 words of the block, extended to 64. *)
Fixpoint extend (n : nat) (w : list Z) : list Z :=
  match n with
  | O => w
  | S n' =>
    let t := length w in
    extend n' (w ++ [wrap32 (small_sigma1 (nth (t - 2) w 0) + nth (t - 7) w 0
                             + small_sigma0 (nth (t - 15) w 0) + nth (t - 16) w 0)])
  end.

Definition round (v : list Z) (kw : Z * Z) : list Z :=
  match v with
  | [a; b; c; d; e; f; g; h] =>
    let t1 := wrap32 (h + big_sigma1 e + Ch e f g + kw.1 + kw.2) in
    let t2 := wrap32 (big_sigma0 a + Maj a b c) in
    [wrap32 (t1 + t2); a; b; c; wrap32 (d + t1); e; f; g]
  | _ => v
  end.

Definition compress (h : list Z) (block : list Z) : list Z :=
  zip_with (λ x y, wrap32 (x + y)) h (foldl round h (zip K (extend 48 block))).

Definition hash_words (msg : list Z) : list Z :=
  let ws := be_words (pad msg) in
  foldl compress H0 (blocks (length ws / 16) ws).

(** The digest as a number: its words, most significant first, each
    taken modulo 2^32. *)
Definition number_of_words (ws : list Z) : Z :=
  foldl (λ acc w, acc * 2 ^ 32 + wrap32 w) 0 (take 8 ws).

Definition sha256 (msg : pybytes) : Z :=
  number_of_words (hash_words ((λ b, Z.of_N (Byte.to_N b)) <$> msg)).

(** [digest()]: the 32 bytes of a digest *)
Definition digest_bytes (d : Z) : pybytes :=
  (λ z, byte_of_N (Z.to_N z)) <$> be_bytes 32 d.

(** [hexdigest()]: its 64 hexadecimal digits *)
Definition hexdigest (d : Z) : pystr :=
  (λ z, hex_digit (Z.to_N z)) <$>
    flat_map (λ b, [b / 16; b mod 16]) (be_bytes 32 d).

Definition xor_byte (c : N) (b : byte) : byte := byte_of_N (N.lxor (Byte.to_N b) c).

(** [hmac.new(key, msg, hashlib.sha256)] *)
Definition hmac_sha256 (key msg : pybytes) : Z :=
  let key0 := if Nat.ltb 64 (length key) then digest_bytes (sha256 key) else key in
  let block_key := key0 ++ replicate (64 - length key0) x00 in
  sha256 ((xor_byte 92 <$> block_key)
          ++ digest_bytes (sha256 ((xor_byte 54 <$> block_key) ++ msg))).
End Sha256.

(** [s.encode("utf-8")], with a surrogate encoded like any other code point
    of its range. *)
Definition encode_code_point (c : N) : pybytes :=
  if c <? 128 then [byte_of_N c]
  else if c <? 2048 then
    [byte_of_N (192 + N.shiftr c 6); byte_of_N (128 + N.land c 63)]
  else if c <? 65536 then
    [byte_of_N (224 + N.shiftr c 12); byte_of_N (128 + N.land (N.shiftr c 6) 63);
     byte_of_N (128 + N.land c 63)]
  else
    [byte_of_N (240 + N.land (N.shiftr c 18) 7);
     byte_of_N (128 + N.land (N.shiftr c 12) 63);
     byte_of_N (128 + N.land (N.shiftr c 6) 63); byte_of_N (128 + N.land c 63)].

Definition encode_utf8 (s : pystr) : pybytes := flat_map encode_code_point s.





(** ** The request signer

    [RequestSigner] is imported by the examples from [msgmodel]; its source
    is not among the files at hand, so it is modelled from the
    specification. *)

Module RequestSigner.

(** Modelled from the spec: the fields in scope of a signature (provider,
    message, model, user identifier, organization identifier).  The class
    [RequestSigner] is missing; the examples always pass the first two and
    leave some of the others out, and the specification tells a missing
    field from an empty one. *)
Record Fields := {
  provider : pystr;
  message : pystr;
  model : option pystr;
  user_id : option pystr;
  org_id : option pystr
}.

(** Modelled from the spec: one field of the canonical string, missing
    from [RequestSigner].  The specification asks for explicit separators
    and no ambiguity between an empty and a missing field: a present value
    is written with its length before it, a missing one as a dash, and a
    line feed closes the field. *)
Definition canonical_field (name : string) (value : option pystr) : pystr :=
  lit name ++ lit "="
  ++ match value with
     | Some v => str_of_nat (length v) ++ lit ":" ++ v
     | None => lit "-"
     end
  ++ LF.

(** Modelled from the spec: the canonicalization of [RequestSigner], which
    is missing: the fields in one stable order. *)
Definition canonicalize (f : Fields) : pystr :=
  canonical_field "provider" (Some (provider f))
  ++ canonical_field "message" (Some (message f))
  ++ canonical_field "model" (model f)
  ++ canonical_field "user_id" (user_id f)
  ++ canonical_field "org_id" (org_id f).

(** Modelled from the spec: [sign] of the missing [RequestSigner]
    ([sign_request] in the examples): the HMAC, with a 256-bit hash, of the
    canonical string under the secret key, as fixed-width hexadecimal
    text. *)
Definition sign_request (secret_key : pybytes) (f : Fields) : pystr :=
  Sha256.hexdigest (Sha256.hmac_sha256 secret_key (encode_utf8 (canonicalize f))).

(** [hmac.compare_digest]: equality, in constant time *)
Definition compare_digest (a b : pystr) : bool := bool_decide (a = b).

(** Modelled from the spec: [verify] of the missing [RequestSigner]
    ([verify_signature] in the examples): the signature is recomputed and
    compared with the one supplied. *)
Definition verify_signature (secret_key : pybytes) (signature : pystr) (f : Fields)
  : bool :=
  compare_digest signature (sign_request secret_key f).

(** [f'] is [f] with the value of one field changed. *)
Inductive one_field_changed (f : Fields) : Fields → Prop :=
| change_provider v :
    v ≠ provider f →
    one_field_changed f {| provider := v; message := message f; model := model f;
                           user_id := user_id f; org_id := org_id f |}
| change_message v :
    v ≠ message f →
    one_field_changed f {| provider := provider f; message := v; model := model f;
                           user_id := user_id f; org_id := org_id f |}
| change_model v :
    v ≠ model f →
    one_field_changed f {| provider := provider f; message := message f; model := v;
                           user_id := user_id f; org_id := org_id f |}
| change_user_id v :
    v ≠ user_id f →
    one_field_changed f {| provider := provider f; message := message f;
                           model := model f; user_id := v; org_id := org_id f |}
| change_org_id v :
    v ≠ org_id f →
    one_field_changed f {| provider := provider f; message := message f;
                           model := model f; user_id := user_id f; org_id := v |}.



(** The request of the signing example, and its key *)
Definition example_key : pybytes := list_byte_of_string "super-secret-key-12345".

Definition example_fields (msg : pystr) : Fields :=
  {| provider := lit "openai"; message := msg; model := Some (lit "gpt-4o");
     user_id := Some (lit "user_123"); org_id := Some (lit "org_456") |}.

End RequestSigner.

(** ** The specification's wording of the attachment rules

    The second definition of the attachment blocks, written from the
    specification: a textual attachment is inlined when it decodes to more
    than white space, an image becomes a data URI, anything else a note
    that names the file and its MIME type. *)

Definition whitespace_only (t : pystr) : bool := forallb isspace t.

Definition attachment_spec (mime_type filename data : pystr) (blocks : list pyval)
  : Prop :=
  if startswith (lit "text/") mime_type then
    match b64decode data with
    | Some raw =>
      let decoded := decode_utf8_ignore raw in
      if whitespace_only decoded then blocks = []
      else blocks = [text_block (lit "(Contents of " ++ filename ++ lit "):"
                                 ++ LF ++ LF ++ decoded)]
    | None => blocks = []
    end
  else if startswith (lit "image/") mime_type then
    blocks = [image_block (lit "data:" ++ mime_type ++ lit ";base64," ++ data)]
  else
    ∃ note, blocks = [text_block note]
            ∧ str_contains filename note = true
            ∧ str_contains mime_type note = true.

(** The payload bytes of a textual attachment: the base64 decoding of its
    data, and no bytes when that decoding fails. *)
Definition attachment_bytes (encoded_data : pystr) : pybytes :=
  default [] (b64decode encoded_data).

(** An attachment as the adapter expects it: absent, an empty dict, or a
    dict with a [mime_type]. *)
Definition attachment_ok (file_data : option (gmap pystr pystr)) : Prop :=
  match file_data with
  | Some fd => fd = ∅ ∨ is_Some (fd !! lit "mime_type")
  | None => True
  end.

(** The header that asks for zero data retention *)
Definition no_store (request : Request) : Prop :=
  req_headers request !! lit "X-OpenAI-No-Store" = Some (lit "true").

(** The configuration of the GPT-4o example *)
Definition gpt4o_provider : OpenAIProvider :=
  {| api_key := lit "sk-test";
     config := {| model := lit "gpt-4o";
                  max_tokens := PInt 2000;
                  temperature := PFloat (FDec false 7 (-1));
                  top_p := PFloat (FDec false 1 0) |} |}.

(** The class of an exception, which is what an [except] clause and a
    caller can branch on. *)
Inductive exn_class :=
| CKeyError | CTypeError | CValueError | CRecursionError | CStopIteration
| CUnicodeDecodeError | CJSONDecodeError
| CRequestException | CAPIError | CStreamingError.

Definition class_of (e : pyexn) : exn_class :=
  match e with
  | KeyError _ => CKeyError
  | TypeError _ => CTypeError
  | ValueError _ => CValueError
  | RecursionError _ => CRecursionError
  | StopIteration => CStopIteration
  | UnicodeDecodeError _ => CUnicodeDecodeError
  | JSONDecodeError => CJSONDecodeError
  | RequestException _ => CRequestException
  | APIError _ _ _ => CAPIError
  | StreamingError _ => CStreamingError
  end.

(** The request [query] and [stream] post for a payload *)
Definition posted (OPENAI_URL : pystr) (self : OpenAIProvider)
    (payload : gmap pystr pyval) (streaming : bool) : Request :=
  {| req_url := OPENAI_URL; req_headers := _build_headers self;
     req_data := payload; req_stream := streaming |}.

(** A response whose streamed body is the given lines *)
Definition streamed (lines : list pybytes) : Response :=
  {| status_code := 200; text := []; lines := lines; broken := None |}.



(** The bytes of a line written with apostrophes in place of the double
    quotes of JSON. *)
Definition event_line (s : string) : pybytes :=
  (λ b, match b with x27 => x22 | _ => b end) <$> list_byte_of_string s.

Definition hi_event : pybytes :=
  event_line "data: {'choices':[{'delta':{'content':'hi'}}]}".

Definition done_event : pybytes := event_line "data: [DONE]".


(** A response whose [choices] carry a number where the text should be *)
Definition numeric_content_response : gmap pystr pyval :=
  py_dict [ (lit "choices",
             PList [PDict (py_dict [ (lit "message",
                                      PDict (py_dict [ (lit "content", PInt 5) ])) ])]) ].

(** Whether an item of the scan is a decoded character *)
Definition is_char (i : utf8_item) : bool :=
  match i with
  | U8Char _ _ => true
  | U8Bad _ _ => false
  end.

(** Worlds for the examples: the endpoint, the recursion depth left to the
    scanner of [json.loads], a network that refuses the connection, and one
    that answers every request with a given response. *)
Definition example_url : pystr := lit "https://api.openai.com/v1/chat/completions".

Definition example_depth : nat := 900.

Definition refusing : Request → PostOutcome :=
  λ _, PostRaises (lit "Connection refused").

Definition answering (r : Response) : Request → PostOutcome := λ _, PostReturns r.

Definition server_error : Response :=
  {| status_code := 500; text := lit "Internal Server Error"; lines := []; broken := None |}.

(** The streaming call receives the successful response [r]. *)
Definition stream_receives (OPENAI_URL : pystr) (requests_post : Request → PostOutcome)
    (self : OpenAIProvider) (prompt : pystr) (system_instruction : option pystr)
    (file_data : option (gmap pystr pystr)) (r : Response) : Prop :=
  ∃ payload,
    _build_payload self prompt system_instruction file_data true = Ok payload
    ∧ requests_post (posted OPENAI_URL self payload true) = PostReturns r
    ∧ ok r = true.

(** A response with its streamed body replaced *)
Definition with_lines (r : Response) (ls : list pybytes) (b : option pystr) : Response :=
  {| status_code := status_code r; text := text r; lines := ls; broken := b |}.

(** The values of JSON that are neither a container nor a string *)
Definition json_scalar (v : pyval) : bool :=
  match v with
  | PNone | PBool _ | PInt _ | PFloat _ => true
  | PStr _ | PList _ | PDict _ => false
  end.

(** ** The callbacks of [examples/v3_2_1_features_demo.py]

    Each [on_chunk] closes over a counter it updates ([nonlocal]) and
    prints; the counter and the text printed so far are threaded through. *)

(** [on_chunk] of [example_streaming_abort_callback] *)
Definition abort_on_chunk (max_chunks : nat) (st : nat * pystr) (text : pystr)
  : (nat * pystr) * bool :=
  let chunk_count := S st.1 in
  let out := st.2 ++ lit "[" ++ str_of_nat chunk_count ++ lit "] " ++ text in
  if Nat.leb max_chunks chunk_count
  then ((chunk_count, out ++ LF ++ lit "[LIMIT REACHED - Aborting stream]" ++ LF), false)
  else ((chunk_count, out), true).

(** [on_chunk] of [example_combined_features] *)
Definition limit_on_chunk (max_output_length : nat) (st : nat * pystr) (text : pystr)
  : (nat * pystr) * bool :=
  let output_length := (st.1 + length text)%nat in
  let out := st.2 ++ text in
  if Nat.ltb max_output_length output_length
  then ((output_length, out ++ LF ++ lit "[OUTPUT LIMIT REACHED]" ++ LF), false)
  else ((output_length, out), true).

(** A callback invoked on each chunk in turn: what it returns each time. *)
Fixpoint answers {S} (on_chunk : S → pystr → S * bool) (st : S) (texts : list pystr)
  : list bool :=
  match texts with
  | [] => []
  | text :: rest =>
    let '(st', continue) := on_chunk st text in
    continue :: answers on_chunk st' rest
  end.

(** ** Notions used by the further properties *)

(** What [json.loads] raises: its decoding error, the [ValueError] of an
    integer literal beyond the digit limit, or a [RecursionError]. *)
Definition loads_error (e : pyexn) : Prop :=
  e = JSONDecodeError
  ∨ (∃ n, e = ValueError (int_limit_msg n))
  ∨ (∃ doing, e = RecursionError (recursion_msg doing)
              ∧ doing ∈ [[]; calling_object; decoding_object; decoding_array]).

(** The exceptions that interrupt the streaming loop: those of the
    operations the loop performs on a line (decoding it, scanning its
    payload, reading the chunk) and of the transport. *)
Definition interruption (e : pyexn) : Prop :=
  match e with
  | UnicodeDecodeError _ | TypeError _ | ValueError _ | RecursionError _
  | RequestException _ => True
  | KeyError _ | StopIteration | JSONDecodeError | APIError _ _ _
  | StreamingError _ => False
  end.

(** A content block as the Chat Completions API reads it: a dict whose
    [type] is [text] or [image_url]. *)
Definition is_content_block (b : pyval) : Prop :=
  ∃ d, b = PDict d
       ∧ (d !! lit "type" = Some (PStr (lit "text"))
          ∨ d !! lit "type" = Some (PStr (lit "image_url"))).

(** The messages of a payload *)
Definition system_message (si : pystr) : pyval :=
  PDict (py_dict [ (lit "role", PStr (lit "system")); (lit "content", PStr si) ]).

Definition user_message (content : list pyval) : pyval :=
  PDict (py_dict [ (lit "role", PStr (lit "user")); (lit "content", PList content) ]).

(** An attachment with the defaults of [_build_content] written in *)
Definition with_defaults (fd : gmap pystr pystr) : gmap pystr pystr :=
  <[lit "filename" := dict_get fd (lit "filename") (lit "input.bin")]>
    (<[lit "data" := dict_get fd (lit "data") (lit "")]> fd).

(** * Properties *)

(** ** Strings *)

Lemma startswith_app (p s : pystr) : startswith p (p ++ s) = true.
Proof. induction p as [|a p IH]; simpl; [done|]. by rewrite N.eqb_refl. Qed.

Lemma startswith_prefix (p s : pystr) :
  startswith p s = true ↔ ∃ t, s = p ++ t.
Proof.
  split.
  - revert s. induction p as [|a p IH]; intros s H; simpl in *; [by exists s|].
    destruct s as [|b s]; [done|].
    apply andb_true_iff in H as [Hab Hps]. apply N.eqb_eq in Hab as ->.
    destruct (IH _ Hps) as [t ->]. by exists t.
  - intros [t ->]. apply startswith_app.
Qed.

Lemma str_contains_unfold (sub s : pystr) :
  str_contains sub s =
  startswith sub s || match s with [] => false | _ :: s' => str_contains sub s' end.
Proof. by destruct s. Qed.

Lemma str_contains_app (x a b : pystr) : str_contains x (a ++ x ++ b) = true.
Proof.
  induction a as [|c a IH].
  - rewrite str_contains_unfold. simpl. by rewrite startswith_app.
  - rewrite str_contains_unfold. simpl. rewrite IH. apply orb_true_r.
Qed.

Lemma lstrip_nil_iff (s : pystr) : lstrip s = [] ↔ forallb isspace s = true.
Proof.
  induction s as [|c s IH]; simpl; [done|].
  destruct (isspace c); simpl; [done|]. split; done.
Qed.

Lemma lstrip_head (s : pystr) c t : lstrip s = c :: t → isspace c = false.
Proof.
  induction s as [|d s IH]; simpl; [done|].
  destruct (isspace d) eqn:Ed; [done|]. by intros [= <- <-].
Qed.

Lemma forallb_reverse {A} (f : A → bool) (l : list A) :
  forallb f (reverse l) = forallb f l.
Proof.
  induction l as [|x l IH]; [done|].
  rewrite reverse_cons, forallb_app, IH. simpl. rewrite andb_true_r. apply andb_comm.
Qed.

Lemma strip_nil_iff (s : pystr) : strip s = [] ↔ forallb isspace s = true.
Proof.
  rewrite <- lstrip_nil_iff. unfold strip, rstrip. split.
  - intros H. apply (f_equal reverse) in H. rewrite reverse_involutive in H.
    change (reverse []) with (@nil N) in H.
    apply lstrip_nil_iff in H. rewrite forallb_reverse in H.
    destruct (lstrip s) as [|c t] eqn:E; [done|].
    apply lstrip_head in E. simpl in H. by rewrite E in H.
  - by intros ->.
Qed.

Lemma truthy_strip (s : pystr) : truthy (PStr (strip s)) = negb (forallb isspace s).
Proof.
  simpl. destruct (forallb isspace s) eqn:E.
  - apply strip_nil_iff in E. by rewrite E.
  - case_bool_decide as H; [|done]. apply strip_nil_iff in H. congruence.
Qed.

(** ** The content list *)

Lemma lookup_Some_size_ne {A} (d : gmap pystr A) k v :
  d !! k = Some v → Nat.eqb (size d) 0 = false.
Proof.
  intros H. apply Nat.eqb_neq. intros Hs. apply map_size_empty_iff in Hs.
  subst. by rewrite lookup_empty in H.
Qed.

Lemma text_not_image (m : pystr) :
  startswith (lit "text/") m = true → startswith (lit "image/") m = false.
Proof.
  intros H. apply startswith_prefix in H as [t ->]. reflexivity.
Qed.

Lemma build_content_Some (prompt : pystr) (fd : gmap pystr pystr) (mime_type : pystr) :
  fd !! lit "mime_type" = Some mime_type →
  _build_content prompt (Some fd)
  = (attachment_blocks fd ≫= λ content, Ok (content ++ [text_block prompt])).
Proof.
  intros H. unfold _build_content. by rewrite (lookup_Some_size_ne _ _ _ H).
Qed.

Ltac result_simpl := cbn [mbind mret result_bind result_ret].

(** C4: an attachment with a MIME type contributes the blocks of the
    specification: a textual one its decoded text under the header with the
    file name, and nothing when decoding fails or leaves only white space; an
    image its data URI, undecoded; any other a note that names the file and
    the MIME type.  The prompt follows. *)
Theorem build_content_attachment_blocks
    (prompt : pystr) (fd : gmap pystr pystr) (mime_type : pystr) :
  fd !! lit "mime_type" = Some mime_type →
  ∃ blocks,
    _build_content prompt (Some fd) = Ok (blocks ++ [text_block prompt])
    ∧ attachment_spec mime_type
        (dict_get fd (lit "filename") (lit "input.bin"))
        (dict_get fd (lit "data") (lit "")) blocks.
Proof.
  intros Hm. rewrite (build_content_Some _ _ _ Hm).
  unfold attachment_blocks, dict_getitem, attachment_spec. rewrite Hm. result_simpl.
  destruct (startswith (lit "text/") mime_type) eqn:Ht.
  - rewrite (text_not_image _ Ht). unfold decode_attachment.
    destruct (b64decode _) as [raw|] eqn:Hb.
    + rewrite truthy_strip. unfold whitespace_only.
      destruct (forallb isspace _); result_simpl; eauto.
    + eauto.
  - destruct (startswith (lit "image/") mime_type) eqn:Hi; result_simpl.
    + eauto.
    + eexists. split; [done|]. eexists. split; [done|].
      unfold note_text. split.
      * apply str_contains_app.
      * rewrite !(app_assoc _ _ (mime_type ++ _)). apply str_contains_app.
Qed.

(** ** UTF-8 decoding *)

Lemma decode_strict_items_chars b pos items :
  forallb is_char items = true →
  decode_strict_items b pos items = Ok (decode_ignore_items items).
Proof.
  revert pos. induction items as [|[cp len|len why] items IH]; intros pos H; simpl in *.
  - done.
  - by rewrite IH.
  - done.
Qed.

Lemma decode_strict_items_Ok b pos items s :
  decode_strict_items b pos items = Ok s → s = decode_ignore_items items.
Proof.
  revert pos s. induction items as [|[cp len|len why] items IH]; intros pos s H; simpl in *.
  - by inversion H.
  - destruct (decode_strict_items b (pos + len) items) eqn:E; [|done].
    inversion H; subst. f_equal. eauto.
  - done.
Qed.

Lemma decode_utf8_agrees (raw : pybytes) (s : pystr) :
  decode_utf8 raw = Ok s → decode_utf8_ignore raw = s.
Proof. intros H. symmetry. by eapply decode_strict_items_Ok. Qed.

Ltac rewrite_tests :=
  repeat match goal with
         | H : _ = true |- _ => rewrite H; clear H
         | H : _ = false |- _ => rewrite H; clear H
         end.

Lemma utf8_scan_keeps (n : nat) :
  ∀ raw : pybytes, (length raw ≤ n)%nat →
  ∃ kept : pybytes,
    kept `sublist_of` raw
    ∧ forallb is_char (utf8_scan kept) = true
    ∧ decode_ignore_items (utf8_scan kept) = decode_ignore_items (utf8_scan raw).
Proof.
  induction n as [|n IH]; intros raw Hlen.
  { destruct raw; [|simpl in Hlen; lia]. by exists []. }
  destruct raw as [|c1 s1]; [by exists []|].
  simpl in Hlen.
  assert (Hdrop : ∀ (pre rest : pybytes) len why,
            (length rest ≤ n)%nat →
            ∃ kept, kept `sublist_of` (pre ++ rest)
              ∧ forallb is_char (utf8_scan kept) = true
              ∧ decode_ignore_items (utf8_scan kept)
                = decode_ignore_items (U8Bad len why :: utf8_scan rest)).
  { intros pre rest len why Hr. destruct (IH rest Hr) as (k & Hk & Hc & He).
    exists k. split; [|done]. by apply sublist_inserts_l. }
  assert (Hkeep : ∀ (pre rest : pybytes) cp len,
            (length rest ≤ n)%nat →
            (∀ k, utf8_scan (pre ++ k) = U8Char cp len :: utf8_scan k) →
            ∃ kept, kept `sublist_of` (pre ++ rest)
              ∧ forallb is_char (utf8_scan kept) = true
              ∧ decode_ignore_items (utf8_scan kept)
                = decode_ignore_items (U8Char cp len :: utf8_scan rest)).
  { intros pre rest cp len Hr Hscan. destruct (IH rest Hr) as (k & Hk & Hc & He).
    exists (pre ++ k). split; [by apply sublist_app|].
    rewrite Hscan. simpl. by rewrite Hc, He. }
  cbn [utf8_scan].
  repeat case_match; subst; simpl in Hlen;
    try (exists []; split; [apply sublist_nil_l|done]);
    first
      [ apply (Hdrop [c1]); simpl; lia
      | apply (Hdrop [c1; _]); simpl; lia
      | apply (Hdrop [c1; _; _]); simpl; lia
      | apply (Hkeep [c1]); [simpl; lia|]
      | apply (Hkeep [c1; _]); [simpl; lia|]
      | apply (Hkeep [c1; _; _]); [simpl; lia|]
      | apply (Hkeep [c1; _; _; _]); [simpl; lia|] ];
    intros k; cbn [app utf8_scan]; by rewrite_tests.
Qed.

Lemma decode_ignore_drops_bytes (raw : pybytes) :
  ∃ kept : pybytes,
    kept `sublist_of` raw ∧ decode_utf8 kept = Ok (decode_utf8_ignore raw).
Proof.
  destruct (utf8_scan_keeps (length raw) raw (le_n _)) as (k & Hk & Hc & He).
  exists k. split; [done|]. unfold decode_utf8, decode_utf8_ignore.
  rewrite <- He. by apply decode_strict_items_chars.
Qed.

Lemma decode_attachment_bytes (data : pystr) :
  decode_attachment data = decode_utf8_ignore (attachment_bytes data).
Proof. unfold decode_attachment, attachment_bytes. by destruct (b64decode data). Qed.

Lemma decode_strict_items_is_char b pos items s :
  decode_strict_items b pos items = Ok s → forallb is_char items = true.
Proof.
  revert pos s. induction items as [|[cp len|len why] items IH]; intros pos s H; simpl in *.
  - done.
  - destruct (decode_strict_items b (pos + len) items) eqn:E; [|done]. eauto.
  - done.
Qed.

Lemma decode_ignore_items_app (a b : list utf8_item) :
  decode_ignore_items (a ++ b) = decode_ignore_items a ++ decode_ignore_items b.
Proof. induction a as [|[cp len|len why] a IH]; simpl; by rewrite ?IH. Qed.

(** Valid UTF-8 does not start with a continuation byte. *)
Lemma valid_first_byte (c1 : byte) (s1 : pybytes) :
  forallb is_char (utf8_scan (c1 :: s1)) = true → is_cont (Byte.to_N c1) = false.
Proof.
  cbn [utf8_scan]. unfold is_cont.
  destruct (Byte.to_N c1 <? 128) eqn:E1.
  { intros _. apply N.ltb_lt in E1. apply andb_false_iff. left. apply N.leb_gt. lia. }
  destruct (Byte.to_N c1 <? 194) eqn:E2; [done|].
  intros _. apply N.ltb_ge in E2. apply andb_false_iff. right. apply N.leb_gt. lia.
Qed.

(** What follows valid UTF-8 is scanned on its own. *)
Lemma utf8_scan_valid_app (n : nat) :
  ∀ mid post : pybytes, (length mid ≤ n)%nat →
  forallb is_char (utf8_scan mid) = true →
  utf8_scan (mid ++ post) = utf8_scan mid ++ utf8_scan post.
Proof.
  induction n as [|n IH]; intros mid post Hlen H.
  { destruct mid; [done|simpl in Hlen; lia]. }
  destruct mid as [|c1 s1]; [done|]. simpl in Hlen.
  cbn [app]. cbn [utf8_scan] in H |- *.
  repeat first
    [ match goal with
      | H : context [if ?b then _ else _] |- _ => destruct b eqn:?
      end
    | match goal with
      | H : context [match ?s with [] => _ | _ :: _ => _ end] |- _ =>
        is_var s; destruct s as [|? ?]; cbn [app] in *
      end ];
    cbn [forallb is_char andb] in H; try discriminate H;
    cbn [app]; f_equal; (apply IH; [simpl in Hlen |- *; lia|done]).
Qed.

(** An ill-formed run never reaches over a byte that is no continuation
    byte: what the decoder keeps of the bytes before it does not depend on
    what follows. *)
Lemma utf8_scan_boundary (x : byte) (rest : pybytes) :
  is_cont (Byte.to_N x) = false →
  ∀ (n : nat) (pre : pybytes), (length pre ≤ n)%nat →
  decode_ignore_items (utf8_scan (pre ++ x :: rest))
  = decode_ignore_items (utf8_scan pre) ++ decode_ignore_items (utf8_scan (x :: rest)).
Proof.
  intros Hx. induction n as [|n IH]; intros pre Hlen.
  { destruct pre; [done|simpl in Hlen; lia]. }
  destruct pre as [|c1 s1]; [done|]. simpl in Hlen.
  remember (utf8_scan (x :: rest)) as sX eqn:HsX.
  cbn [app]. cbn [utf8_scan].
  repeat first
    [ rewrite Hx; cbn [negb orb]
    | match goal with
      | |- context [if ?b then _ else _] => destruct b eqn:?
      end
    | match goal with
      | |- context [match ?s ++ _ :: _ with [] => _ | _ :: _ => _ end] =>
        is_var s; destruct s as [|? ?]; cbn [app] in *
      end ];
    cbn [decode_ignore_items app]; rewrite <- ?HsX;
    repeat match goal with
           | |- context [utf8_scan (?c :: ?s ++ ?r)] =>
             change (c :: s ++ r) with ((c :: s) ++ r)
           end;
    rewrite ?HsX, ?IH by (simpl in Hlen |- *; lia); subst sX; done.
Qed.

(** A stretch of valid UTF-8 that is not empty is decoded as it is, and
    the bytes before and after it are decoded on their own. *)
Lemma decode_ignore_valid_stretch (pre mid post : pybytes) (s : pystr) :
  mid ≠ [] → decode_utf8 mid = Ok s →
  decode_utf8_ignore (pre ++ mid ++ post)
  = decode_utf8_ignore pre ++ s ++ decode_utf8_ignore post.
Proof.
  intros Hne Hs. unfold decode_utf8_ignore.
  pose proof (decode_strict_items_is_char _ _ _ _ Hs) as Hc.
  apply decode_strict_items_Ok in Hs. subst s.
  destruct mid as [|x rest]; [done|].
  pose proof (valid_first_byte _ _ Hc) as Hx.
  change ((x :: rest) ++ post) with (x :: (rest ++ post)).
  rewrite (utf8_scan_boundary x (rest ++ post) Hx (length pre) pre (le_n _)).
  change (x :: (rest ++ post)) with ((x :: rest) ++ post).
  rewrite (utf8_scan_valid_app (length (x :: rest)) (x :: rest) post (le_n _) Hc).
  by rewrite decode_ignore_items_app.
Qed.

(** C10: for a textual attachment no error is raised whatever the payload
    bytes, and the text inlined is those bytes with the invalid ones
    dropped: it is the decoding of a sublist [kept] of them that is valid
    UTF-8; nothing is dropped from valid UTF-8; every stretch of the
    payload that is valid UTF-8 appears in it as it is, between what is
    kept of the bytes before and of the bytes after, so that a stretch
    with more than white space in it keeps the block in the list; and the
    block is left out exactly when the text is empty or white space
    only. *)
Theorem text_attachment_drops_invalid_utf8
    (prompt : pystr) (fd : gmap pystr pystr) (mime_type : pystr) :
  fd !! lit "mime_type" = Some mime_type →
  startswith (lit "text/") mime_type = true →
  ∃ (kept : pybytes) (decoded : pystr),
    kept `sublist_of` attachment_bytes (dict_get fd (lit "data") (lit ""))
    ∧ decode_utf8 kept = Ok decoded
    ∧ (∀ s, decode_utf8 (attachment_bytes (dict_get fd (lit "data") (lit ""))) = Ok s
            → decoded = s)
    ∧ (∀ (pre mid post : pybytes) (s : pystr),
         attachment_bytes (dict_get fd (lit "data") (lit "")) = pre ++ mid ++ post →
         mid ≠ [] →
         decode_utf8 mid = Ok s →
         (∃ (k1 k2 : pybytes) (t1 t2 : pystr),
            k1 `sublist_of` pre ∧ k2 `sublist_of` post
            ∧ decode_utf8 k1 = Ok t1 ∧ decode_utf8 k2 = Ok t2
            ∧ decoded = t1 ++ s ++ t2)
         ∧ (whitespace_only s = false →
            _build_content prompt (Some fd) =
              Ok [text_block (contents_text
                                (dict_get fd (lit "filename") (lit "input.bin"))
                                decoded);
                  text_block prompt]))
    ∧ _build_content prompt (Some fd) =
        Ok (if whitespace_only decoded then [text_block prompt]
            else [text_block (contents_text
                                (dict_get fd (lit "filename") (lit "input.bin"))
                                decoded);
                  text_block prompt]).
Proof.
  intros Hm Ht.
  set (raw := attachment_bytes (dict_get fd (lit "data") (lit ""))).
  assert (Hbuild : _build_content prompt (Some fd) =
            Ok (if whitespace_only (decode_utf8_ignore raw) then [text_block prompt]
                else [text_block (contents_text
                                    (dict_get fd (lit "filename") (lit "input.bin"))
                                    (decode_utf8_ignore raw));
                      text_block prompt])).
  { rewrite (build_content_Some _ _ _ Hm).
    unfold attachment_blocks, dict_getitem. rewrite Hm. result_simpl.
    rewrite (text_not_image _ Ht), Ht, decode_attachment_bytes, truthy_strip.
    fold raw. unfold whitespace_only.
    by destruct (forallb isspace (decode_utf8_ignore raw)). }
  destruct (decode_ignore_drops_bytes raw) as (kept & Hsub & Hdec).
  exists kept, (decode_utf8_ignore raw).
  split; [done|]. split; [done|]. split; [|split; [|done]].
  - intros s Hs. by apply decode_utf8_agrees.
  - intros pre mid post s Hraw Hne Hs.
    pose proof (decode_ignore_valid_stretch pre mid post s Hne Hs) as Hd.
    rewrite <- Hraw in Hd.
    destruct (decode_ignore_drops_bytes pre) as (k1 & Hk1 & Hd1).
    destruct (decode_ignore_drops_bytes post) as (k2 & Hk2 & Hd2).
    split; [by exists k1, k2, (decode_utf8_ignore pre), (decode_utf8_ignore post)|].
    intros Hw. rewrite Hbuild, Hd. unfold whitespace_only in *.
    by rewrite !forallb_app, Hw, andb_false_r.
Qed.

(** C5: the content list ends with the text block of the prompt, after
    the blocks of the attachment, and is that block alone when there is no
    attachment. *)
Theorem build_content_prompt_last
    (prompt : pystr) (file_data : option (gmap pystr pystr)) :
  attachment_ok file_data →
  ∃ blocks,
    _build_content prompt file_data = Ok (blocks ++ [text_block prompt])
    ∧ match file_data with
      | Some fd => (fd = ∅ ∧ blocks = []) ∨ attachment_blocks fd = Ok blocks
      | None => blocks = []
      end.
Proof.
  destruct file_data as [fd|]; simpl; [|by exists []].
  intros [->|[m Hm]].
  - exists []. split; [done|]. by left.
  - rewrite (build_content_Some _ _ _ Hm).
    unfold attachment_blocks, dict_getitem. rewrite Hm. result_simpl.
    repeat case_match; result_simpl; eexists; (split; [done|]); by right.
Qed.

(** ** Headers and payload *)

Lemma build_headers_no_store (self : OpenAIProvider) :
  _build_headers self !! lit "X-OpenAI-No-Store" = Some (lit "true").
Proof. unfold _build_headers, py_dict. simpl. apply lookup_insert_eq. Qed.

Lemma lit_neq (a b : string) : bool_decide (lit a = lit b) = false → lit a ≠ lit b.
Proof. intros H. by apply bool_decide_eq_false in H. Qed.

Lemma build_payload_token_limit_name (self : OpenAIProvider) (prompt : pystr)
    (system_instruction : option pystr) (file_data : option (gmap pystr pystr))
    (stream : bool) (payload : gmap pystr pyval) :
  _build_payload self prompt system_instruction file_data stream = Ok payload →
  payload !! lit "max_tokens" = Some (max_tokens (config self))
  ∧ payload !! lit "max_completion_tokens" = None.
Proof.
  unfold _build_payload. destruct (_build_content prompt file_data) as [content|e];
    result_simpl; [|done].
  intros [= <-]. unfold py_dict. cbn [foldl fst snd].
  destruct stream.
  - split.
    + rewrite lookup_insert_ne by (by apply lit_neq).
      do 2 (rewrite lookup_insert_ne by (by apply lit_neq)).
      apply lookup_insert_eq.
    + by repeat (rewrite lookup_insert_ne by (by apply lit_neq)).
  - split.
    + do 2 (rewrite lookup_insert_ne by (by apply lit_neq)).
      apply lookup_insert_eq.
    + by repeat (rewrite lookup_insert_ne by (by apply lit_neq)).
Qed.

(** C1: the payload built for the model of the GPT-4o example carries the
    token limit under [max_tokens], and no [max_completion_tokens]. *)
Theorem gpt4o_payload_uses_max_tokens :
  ∃ payload,
    _build_payload gpt4o_provider
      (lit "What is the difference between AI and AGI?") None None false = Ok payload
    ∧ payload !! lit "model" = Some (PStr (lit "gpt-4o"))
    ∧ payload !! lit "max_tokens" = Some (PInt 2000)
    ∧ payload !! lit "max_completion_tokens" = None.
Proof.
  eexists. split; [reflexivity|]. repeat split; reflexivity.
Qed.

Section ProviderFacts.
Variable OPENAI_URL : pystr.
Variable requests_post : Request → PostOutcome.
Variables depth query_depth : nat.

(** C8: every request [query] and [stream] send carries the header
    [X-OpenAI-No-Store: true], whatever the key, the configuration, the
    prompt and the attachment; and one request is sent whenever the content
    builds. *)
Theorem no_store_header_on_every_request (self : OpenAIProvider) (prompt : pystr)
    (system_instruction : option pystr) (file_data : option (gmap pystr pystr)) :
  Forall no_store
    (query OPENAI_URL requests_post query_depth self prompt system_instruction file_data).1
  ∧ Forall no_store
      (sent (stream OPENAI_URL requests_post depth self prompt system_instruction file_data))
  ∧ match _build_content prompt file_data with
    | Ok _ =>
      length (query OPENAI_URL requests_post query_depth self prompt system_instruction
                file_data).1 = 1%nat
      ∧ length (sent (stream OPENAI_URL requests_post depth self prompt
                        system_instruction file_data)) = 1%nat
    | Raise _ => True
    end.
Proof.
  unfold query, stream, _build_payload.
  destruct (_build_content prompt file_data) as [content|e]; result_simpl.
  - pose proof (build_headers_no_store self) as Hh.
    split; [|split].
    + by repeat constructor.
    + repeat case_match; by repeat constructor.
    + split; [done|]. by repeat case_match.
  - by repeat constructor.
Qed.
End ProviderFacts.

(** ** The streaming loop *)

Section StreamFacts.
Variable OPENAI_URL : pystr.
Variable requests_post : Request → PostOutcome.
Variables depth query_depth : nat.

(** The event of the examples nests four containers; a malformed payload
    is skipped when three calls are left where its error is raised. *)
Example process_hi_event :
  process_line (4 + depth) hi_event = Continue [PStr (lit "hi")].
Proof. vm_compute. reflexivity. Qed.

Example process_done_event : process_line depth done_event = Break.
Proof. vm_compute. reflexivity. Qed.

Example process_bad_utf8 :
  process_line depth [xff] =
  Fail (UnicodeDecodeError
          (lit "'utf-8' codec can't decode byte 0xff in position 0: invalid start byte")).
Proof. vm_compute. reflexivity. Qed.

Example process_not_json :
  process_line (4 + depth) (event_line "data: {oops") = Continue [].
Proof. vm_compute. reflexivity. Qed.

Example process_not_json_near_limit :
  process_line 3 (event_line "data: {oops") =
  Fail (RecursionError (recursion_msg calling_object)).
Proof. vm_compute. reflexivity. Qed.

Example process_nested_beyond_limit :
  process_line 3 hi_event = Fail (RecursionError (recursion_msg decoding_object)).
Proof. vm_compute. reflexivity. Qed.

Example process_json_number :
  process_line depth (event_line "data: 5") =
  Fail (TypeError (lit "argument of type 'int' is not iterable")).
Proof. vm_compute. reflexivity. Qed.

Lemma stream_loop_count (lines : list pybytes) (broken : option pystr) (n : nat)
    (texts : list pyval) (m : nat) :
  stream_loop depth lines broken n = (texts, inr m) → m = (n + length texts)%nat.
Proof.
  revert n texts. induction lines as [|line rest IH]; intros n texts; simpl.
  - destruct broken; [done|]. intros [= <- <-]. simpl. lia.
  - destruct (process_line depth line) as [ts| |e]; [|intros [= <- <-]; simpl; lia|done].
    destruct (stream_loop depth rest broken (n + length ts)) as [more fin] eqn:E.
    intros [= <- ->]. apply IH in E. rewrite length_app. lia.
Qed.



Lemma stream_loop_app (l1 l2 : list pybytes) (broken : option pystr) (n : nat) :
  stream_loop depth (l1 ++ l2) broken n =
  match stream_loop depth l1 None n with
  | (texts, inr m) =>
    if forallb (λ l, match process_line depth l with Break => false | _ => true end) l1
    then let '(more, fin) := stream_loop depth l2 broken m in (texts ++ more, fin)
    else (texts, inr m)
  | (texts, inl e) => (texts, inl e)
  end.
Proof.
  revert n. induction l1 as [|line rest IH]; intros n; simpl.
  - by destruct (stream_loop depth l2 broken n).
  - destruct (process_line depth line) as [ts| |e]; simpl; [|done|done].
    rewrite IH. destruct (stream_loop depth rest None (n + length ts)) as [texts [e|m]]; [done|].
    destruct (forallb _ rest); [|done].
    destruct (stream_loop depth l2 broken m). by rewrite app_assoc.
Qed.


Lemma stream_loop_undecodable (after : list pybytes) (bad : pybytes)
    (broken : option pystr) (n : nat) (e : pyexn) :
  decode_utf8 bad = Raise e → stream_loop depth (bad :: after) broken n = ([], inl e).
Proof.
  intros H. simpl. unfold process_line. rewrite H.
  destruct bad; [done|]. done.
Qed.


(** C7: a stream whose loop ends normally raises nothing, yields the texts
    of the loop, and logs the empty-stream error exactly when it yielded no
    chunk. *)
Theorem empty_stream_logged_not_raised (self : OpenAIProvider) (prompt : pystr)
    (system_instruction : option pystr) (file_data : option (gmap pystr pystr))
    (payload : gmap pystr pyval) (response : Response)
    (texts : list pyval) (n : nat) :
  _build_payload self prompt system_instruction file_data true = Ok payload →
  requests_post (posted OPENAI_URL self payload true) = PostReturns response →
  ok response = true →
  stream_loop depth (lines response) (broken response) 0 = (texts, inr n) →
  let run := stream OPENAI_URL requests_post depth self prompt system_instruction file_data in
  raised run = None
  ∧ yielded run = texts
  ∧ logged run = match texts with
                 | [] => [(ERROR, empty_stream_message)]
                 | _ :: _ => []
                 end.
Proof.
  intros Hp Hpost Hok Hloop. unfold stream. rewrite Hp. cbv zeta.
  unfold posted in Hpost. rewrite Hpost, Hok. simpl negb. cbv iota.
  rewrite Hloop. simpl. apply stream_loop_count in Hloop. subst n.
  by destruct texts.
Qed.

(** C2, as amended: a connection failure and a non-success status are both
    raised as [APIError]; the first carries only the message
    [Request failed: ...], the second the status code and the raw body. *)
Theorem request_failures_raise_APIError (self : OpenAIProvider) (prompt : pystr)
    (system_instruction : option pystr) (file_data : option (gmap pystr pystr))
    (content : list pyval) :
  _build_content prompt file_data = Ok content →
  ∃ payload spayload,
    _build_payload self prompt system_instruction file_data false = Ok payload
    ∧ _build_payload self prompt system_instruction file_data true = Ok spayload
    ∧ match requests_post (posted OPENAI_URL self payload false) with
      | PostRaises e =>
        (query OPENAI_URL requests_post query_depth self prompt system_instruction file_data).2
        = Raise (APIError (lit "Request failed: " ++ e) None None)
      | PostReturns r =>
        if ok r then True
        else (query OPENAI_URL requests_post query_depth self prompt system_instruction file_data).2
             = Raise (APIError (lit "OpenAI API error: " ++ text r)
                               (Some (status_code r)) (Some (text r)))
      end
    ∧ match requests_post (posted OPENAI_URL self spayload true) with
      | PostRaises e =>
        raised (stream OPENAI_URL requests_post depth self prompt system_instruction file_data)
        = Some (APIError (lit "Request failed: " ++ e) None None)
      | PostReturns r =>
        if ok r then True
        else raised (stream OPENAI_URL requests_post depth self prompt system_instruction
                       file_data)
             = Some (APIError (lit "OpenAI API error: " ++ text r)
                              (Some (status_code r)) (Some (text r)))
      end.
Proof.
  intros Hc. unfold query, stream, _build_payload. rewrite Hc. result_simpl.
  eexists _, _. split; [done|]. split; [done|]. unfold posted. split.
  - destruct (requests_post _) as [e|r]; [done|]. by destruct (ok r).
  - destruct (requests_post _) as [e|r]; [done|]. by destruct (ok r).
Qed.
End StreamFacts.

(** C6: on a response whose content is the number 5, [extract_text]
    returns that number, which is no string. *)
Theorem extract_text_returns_number :
  extract_text numeric_content_response = PInt 5.
Proof. vm_compute. reflexivity. Qed.

(** ** Witnesses and counterexamples of the claims *)

Lemma build_content_attachment_blocks_witness :
  ∃ blocks,
    _build_content (lit "Summarise")
      (Some (py_dict [ (lit "mime_type", lit "text/plain");
                       (lit "data", lit "aGVsbG8=");
                       (lit "filename", lit "note.txt") ]))
    = Ok (blocks ++ [text_block (lit "Summarise")])
    ∧ attachment_spec (lit "text/plain") (lit "note.txt") (lit "aGVsbG8=") blocks.
Proof.
  apply (build_content_attachment_blocks (lit "Summarise")
           (py_dict [ (lit "mime_type", lit "text/plain");
                      (lit "data", lit "aGVsbG8=");
                      (lit "filename", lit "note.txt") ])
           (lit "text/plain")).
  reflexivity.
Defined.

Lemma text_attachment_drops_invalid_utf8_witness :
  ∃ (kept : pybytes) (decoded : pystr),
    kept `sublist_of` attachment_bytes (lit "/2hp4oI=")
    ∧ decode_utf8 kept = Ok decoded
    ∧ (∀ s, decode_utf8 (attachment_bytes (lit "/2hp4oI=")) = Ok s → decoded = s)
    ∧ (∀ (pre mid post : pybytes) (s : pystr),
         attachment_bytes (lit "/2hp4oI=") = pre ++ mid ++ post →
         mid ≠ [] →
         decode_utf8 mid = Ok s →
         (∃ (k1 k2 : pybytes) (t1 t2 : pystr),
            k1 `sublist_of` pre ∧ k2 `sublist_of` post
            ∧ decode_utf8 k1 = Ok t1 ∧ decode_utf8 k2 = Ok t2
            ∧ decoded = t1 ++ s ++ t2)
         ∧ (whitespace_only s = false →
            _build_content (lit "Summarise")
              (Some (py_dict [ (lit "mime_type", lit "text/plain");
                               (lit "data", lit "/2hp4oI=");
                               (lit "filename", lit "note.txt") ]))
            = Ok [text_block (contents_text (lit "note.txt") decoded);
                  text_block (lit "Summarise")]))
    ∧ _build_content (lit "Summarise")
        (Some (py_dict [ (lit "mime_type", lit "text/plain");
                         (lit "data", lit "/2hp4oI=");
                         (lit "filename", lit "note.txt") ]))
      = Ok (if whitespace_only decoded then [text_block (lit "Summarise")]
            else [text_block (contents_text (lit "note.txt") decoded);
                  text_block (lit "Summarise")]).
Proof.
  apply (text_attachment_drops_invalid_utf8 (lit "Summarise")
           (py_dict [ (lit "mime_type", lit "text/plain");
                      (lit "data", lit "/2hp4oI=");
                      (lit "filename", lit "note.txt") ])
           (lit "text/plain")); reflexivity.
Defined.

Lemma build_content_prompt_last_witness :
  ∃ blocks,
    _build_content (lit "Describe")
      (Some (py_dict [ (lit "mime_type", lit "image/png"); (lit "data", lit "iVBORw0KGgo=") ]))
    = Ok (blocks ++ [text_block (lit "Describe")])
    ∧ ((py_dict [ (lit "mime_type", lit "image/png"); (lit "data", lit "iVBORw0KGgo=") ]
          = (∅ : gmap pystr pystr) ∧ blocks = [])
       ∨ attachment_blocks
           (py_dict [ (lit "mime_type", lit "image/png"); (lit "data", lit "iVBORw0KGgo=") ])
         = Ok blocks).
Proof.
  apply (build_content_prompt_last (lit "Describe")
           (Some (py_dict [ (lit "mime_type", lit "image/png");
                            (lit "data", lit "iVBORw0KGgo=") ]))).
  right. by eexists.
Defined.

(** C2, counterexample: a refused connection is raised as an [APIError],
    the class a status of 500 is raised as: the two kinds are not distinct. *)
Lemma transport_failure_is_APIError :
  ∃ e1 e2,
    (query example_url refusing example_depth gpt4o_provider (lit "Hello") None None).2 = Raise e1
    ∧ (query example_url (answering server_error) example_depth gpt4o_provider (lit "Hello")
         None None).2 = Raise e2
    ∧ class_of e1 = CAPIError
    ∧ class_of e1 = class_of e2.
Proof. eexists _, _. repeat split; reflexivity. Qed.

Lemma request_failures_raise_APIError_witness :
  (query example_url refusing example_depth gpt4o_provider (lit "Hello") None None).2
  = Raise (APIError (lit "Request failed: Connection refused") None None)
  ∧ raised (stream example_url refusing example_depth gpt4o_provider (lit "Hello") None None)
    = Some (APIError (lit "Request failed: Connection refused") None None).
Proof.
  destruct (request_failures_raise_APIError example_url refusing example_depth
              example_depth gpt4o_provider
              (lit "Hello") None None [text_block (lit "Hello")] eq_refl)
    as (payload & spayload & _ & _ & Hq & Hs).
  exact (conj Hq Hs).
Defined.



Lemma empty_stream_logged_not_raised_witness :
  raised (stream example_url (answering (streamed [done_event])) example_depth gpt4o_provider
            (lit "Hello") None None) = None
  ∧ yielded (stream example_url (answering (streamed [done_event])) example_depth gpt4o_provider
               (lit "Hello") None None) = []
  ∧ logged (stream example_url (answering (streamed [done_event])) example_depth gpt4o_provider
              (lit "Hello") None None) = [(ERROR, empty_stream_message)].
Proof.
  destruct (_build_payload gpt4o_provider (lit "Hello") None None true)
    as [payload|e] eqn:Hp; [|discriminate Hp].
  exact (empty_stream_logged_not_raised example_url (answering (streamed [done_event]))
           example_depth gpt4o_provider (lit "Hello") None None payload (streamed [done_event])
           [] 0 Hp eq_refl eq_refl eq_refl).
Defined.
(** ** Decimal rendering *)






(** ** The canonical string *)

Section SignerFacts.
Import RequestSigner.





(** ** Counting digests *)

Lemma no_injection_below (g : nat → Z) (bound : nat) :
  (∀ n, (0 ≤ g n < Z.of_nat bound)%Z) → ¬ (∀ i j, i ≠ j → g i ≠ g j).
Proof.
  intros Hg Hinj.
  assert (Hnd : NoDup (g <$> seq 0 (S bound))).
  { apply NoDup_fmap_2_strong; [|apply NoDup_seq].
    intros i j _ _ Hij. destruct (decide (i = j)); [done|]. by destruct (Hinj i j). }
  assert (Hin : ∀ x, x ∈ g <$> seq 0 (S bound) → x ∈ Z.of_nat <$> seq 0 bound).
  { intros x Hx. apply list_elem_of_fmap in Hx as (n & -> & _).
    apply list_elem_of_fmap. exists (Z.to_nat (g n)). specialize (Hg n).
    split; [lia|]. apply elem_of_seq. lia. }
  pose proof (submseteq_length _ _ (NoDup_submseteq _ _ Hnd Hin)) as Hlen.
  rewrite !length_fmap, !length_seq in Hlen. lia.
Qed.

Lemma wrap32_range (x : Z) : (0 ≤ Sha256.wrap32 x < 2 ^ 32)%Z.
Proof. unfold Sha256.wrap32. apply Z.mod_pos_bound. done. Qed.

Lemma number_of_words_range (ws : list Z) :
  (0 ≤ Sha256.number_of_words ws < 2 ^ 256)%Z.
Proof.
  unfold Sha256.number_of_words.
  assert (H : ∀ (l : list Z) (acc : Z) (n : nat),
            (length l ≤ n)%nat → (0 ≤ acc)%Z →
            (0 ≤ foldl (λ acc w, acc * 2 ^ 32 + Sha256.wrap32 w) acc l
             < (acc + 1) * 2 ^ (32 * Z.of_nat n))%Z).
  { induction l as [|w l IH]; intros acc n Hn Hacc; simpl.
    - split; [done|].
      assert (0 < 2 ^ (32 * Z.of_nat n))%Z by (apply Z.pow_pos_nonneg; lia). nia.
    - destruct n as [|n]; simpl in Hn; [lia|].
      pose proof (wrap32_range w) as Hw.
      destruct (IH (acc * 2 ^ 32 + Sha256.wrap32 w)%Z n ltac:(lia) ltac:(lia)) as [H1 H2].
      split; [done|]. eapply Z.lt_le_trans; [exact H2|].
      replace (32 * Z.of_nat (S n))%Z with (32 + 32 * Z.of_nat n)%Z by lia.
      rewrite Z.pow_add_r by lia.
      assert (0 < 2 ^ (32 * Z.of_nat n))%Z by (apply Z.pow_pos_nonneg; lia).
      nia. }
  specialize (H (take 8 ws) 0%Z 8%nat). rewrite length_take in H.
  specialize (H ltac:(lia) ltac:(lia)).
  change (32 * Z.of_nat 8)%Z with 256%Z in H. lia.
Qed.

Lemma hmac_range (k m : pybytes) : (0 ≤ Sha256.hmac_sha256 k m < 2 ^ 256)%Z.
Proof. unfold Sha256.hmac_sha256, Sha256.sha256. apply number_of_words_range. Qed.

Lemma replicate_inj {A} (x : A) (n m : nat) : replicate n x = replicate m x → n = m.
Proof. intros H. apply (f_equal length) in H. by rewrite !length_replicate in H. Qed.

(** ** The encoding of the canonical string *)











(** ** The rendering of a tag *)









(** The scenario of the specification: the signature of the example
    request does not verify once the message is changed. *)
Lemma tampered_example_rejected :
  verify_signature example_key
    (sign_request example_key (example_fields (lit "Analyze my data")))
    (example_fields (lit "Different message")) = false.
Proof. vm_compute. reflexivity. Qed.

Lemma no_injection_into_range (g : nat → Z) (B : Z) :
  (∀ n, (0 ≤ g n < B)%Z) → ¬ (∀ i j, i ≠ j → g i ≠ g j).
Proof.
  intros Hg. apply (no_injection_below g (Z.to_nat B)).
  intros n. specialize (Hg n). lia.
Qed.

Lemma message_changed (f : Fields) (v : pystr) :
  v ≠ message f →
  one_field_changed f {| provider := provider f; message := v; model := model f;
                         user_id := user_id f; org_id := org_id f |}.
Proof. apply change_message. Qed.

Section BoundedTags.
Variable sign : pybytes → Fields → pystr.
Variable tag : pybytes → Fields → Z.
Variable render : Z → pystr.
Variable bound : Z.
Hypothesis sign_render : ∀ k f, sign k f = render (tag k f).
Hypothesis tag_range : ∀ k f, (0 ≤ tag k f < bound)%Z.

Lemma bounded_tags_collide :
  ¬ (∀ (k : pybytes) (f f' : Fields),
       one_field_changed f f' → compare_digest (sign k f) (sign k f') = false).
Proof.
  intros Hclaim.
  pose (fields := λ n : nat,
          {| provider := []; message := replicate n 97; model := None;
             user_id := None; org_id := None |}).
  apply (no_injection_into_range (λ n, tag [] (fields n)) bound).
  - intros n. apply tag_range.
  - intros i j Hij Hg.
    assert (Hch : one_field_changed (fields i) (fields j)).
    { apply (message_changed (fields i) (replicate j 97)).
      intros H. apply replicate_inj in H. done. }
    specialize (Hclaim [] _ _ Hch).
    unfold compare_digest in Hclaim. apply bool_decide_eq_false in Hclaim.
    apply Hclaim. rewrite !sign_render. by rewrite Hg.
Qed.
End BoundedTags.

Lemma sign_request_renders (k : pybytes) (f : Fields) :
  sign_request k f
  = Sha256.hexdigest (Sha256.hmac_sha256 k (encode_utf8 (canonicalize f))).
Proof. reflexivity. Qed.

(** Tags are numbers below 2^256 and requests are without number, so
    under any key some two requests that differ in their message have the
    same signature: that a changed request is rejected is a matter of the
    MAC, and holds for the requests it tells apart. *)
Lemma rejection_rests_on_the_mac :
  ¬ (∀ (k : pybytes) (f f' : Fields),
       one_field_changed f f' →
       verify_signature k (sign_request k f) f' = false).
Proof.
  exact (bounded_tags_collide sign_request
           (λ k f, Sha256.hmac_sha256 k (encode_utf8 (canonicalize f)))
           Sha256.hexdigest (2 ^ 256)%Z sign_request_renders
           (λ k f, hmac_range k (encode_utf8 (canonicalize f)))).
Qed.



End SignerFacts.

(** * Further properties of the adapter *)

(** ** What [json.loads] can raise *)

Lemma decode_error_loads (left : nat) : loads_error (decode_error left).
Proof.
  unfold loads_error.
  destruct left as [|[|[|left]]]; simpl; [right; right..|by left];
    eexists; (split; [reflexivity|]); set_solver.
Qed.

Lemma recursion_error_loads (doing : pystr) :
  doing ∈ [[]; calling_object; decoding_object; decoding_array] →
  loads_error (RecursionError (recursion_msg doing)).
Proof. intros H. right; right. by exists doing. Qed.

Lemma match_number_raises (s : pystr) (e : pyexn) :
  match_number s = Raise e → e = StopIteration ∨ loads_error e.
Proof.
  unfold match_number, loads_error. repeat case_match; intros [= <-]; eauto.
Qed.

Lemma parse_constant_raises (depth : nat) (v : pyfloat) (rest : pystr) (e : pyexn) :
  parse_constant depth v rest = Raise e → loads_error e.
Proof.
  destruct depth; [|done]. intros [= <-]. apply recursion_error_loads. set_solver.
Qed.

Lemma scan_raises (fuel : nat) :
  (∀ depth s e, scan_once fuel depth s = Raise e → e = StopIteration ∨ loads_error e)
  ∧ (∀ depth s acc e,
       parse_array_items fuel depth s acc = Raise e → e = StopIteration ∨ loads_error e)
  ∧ (∀ depth s acc e,
       parse_object_items fuel depth s acc = Raise e → e = StopIteration ∨ loads_error e).
Proof.
  induction fuel as [|fuel (IHs & IHa & IHo)].
  { repeat split; intros; simpl in *; simplify_eq; by left. }
  repeat split.
  - intros depth s e. cbn [scan_once].
    repeat case_match;
      try (intros [= <-]; first [by left | right; apply decode_error_loads
                                | right; apply recursion_error_loads; set_solver]);
      try done; eauto using match_number_raises, parse_constant_raises.
  - intros depth s acc e. cbn [parse_array_items].
    repeat case_match;
      try (intros [= <-]; first [by left | right; apply decode_error_loads]);
      try done; eauto.
    intros [= <-]. eauto.
  - intros depth s acc e. cbn [parse_object_items].
    repeat case_match;
      try (intros [= <-]; first [by left | right; apply decode_error_loads]);
      try done; eauto.
    intros [= <-]. eauto.
Qed.

Lemma json_loads_raises (depth : nat) (s : pystr) (e : pyexn) :
  json_loads depth s = Raise e → loads_error e.
Proof.
  unfold json_loads. destruct (startswith _ s).
  { intros [= <-]. exact (decode_error_loads (3 + depth)). }
  destruct (scan_once _ _ _) as [[v rest]|e'] eqn:E.
  - destruct (skip_ws rest); [done|]. intros [= <-].
    exact (decode_error_loads (2 + depth)).
  - destruct (proj1 (scan_raises _) _ _ _ E) as [->|H].
    + intros [= <-]. exact (decode_error_loads (1 + depth)).
    + destruct e'; intros [= <-];
        first [exact H | exact (decode_error_loads (1 + depth))].
Qed.

(** Text that opens more arrays than the scanner has calls left is not
    parsed, whatever follows. *)
Lemma scan_once_nesting (depth : nat) :
  ∀ (fuel : nat) (rest : pystr), (2 * depth + 1 ≤ fuel)%nat →
  scan_once fuel depth (replicate (S depth) 91 ++ rest)
  = Raise (RecursionError (recursion_msg decoding_array)).
Proof.
  induction depth as [|depth IH]; intros fuel rest Hfuel.
  - destruct fuel as [|fuel]; [lia|]. reflexivity.
  - destruct fuel as [|[|fuel]]; [lia..|].
    change (replicate (S (S depth)) 91 ++ rest)
      with (91 :: (91 :: replicate depth 91 ++ rest)).
    cbn [scan_once]. change (91 =? 34) with false. change (91 =? 123) with false.
    change (91 =? 91) with true. cbv iota.
    change (skip_ws (91 :: replicate depth 91 ++ rest))
      with (91 :: replicate depth 91 ++ rest).
    cbv iota. change (91 =? 93) with false. cbv iota.
    cbn [parse_array_items].
    change (91 :: replicate depth 91 ++ rest) with (replicate (S depth) 91 ++ rest).
    rewrite IH by lia. done.
Qed.

Lemma json_loads_nesting (depth : nat) (rest : pystr) :
  json_loads depth (replicate (S depth) 91 ++ rest)
  = Raise (RecursionError (recursion_msg decoding_array)).
Proof.
  unfold json_loads.
  change (replicate (S depth) 91 ++ rest) with (91 :: (replicate depth 91 ++ rest)).
  change (startswith [65279] (91 :: replicate depth 91 ++ rest)) with false. cbv iota.
  change (skip_ws (91 :: replicate depth 91 ++ rest))
    with (91 :: replicate depth 91 ++ rest).
  change (91 :: replicate depth 91 ++ rest) with (replicate (S depth) 91 ++ rest).
  rewrite scan_once_nesting; [done|].
  rewrite length_app, length_replicate. lia.
Qed.

(** ** Further properties of the content list *)

Lemma size_zero_empty {A} (d : gmap pystr A) : Nat.eqb (size d) 0 = true ↔ d = ∅.
Proof. rewrite Nat.eqb_eq. apply map_size_empty_iff. Qed.

Lemma attachment_blocks_result (fd : gmap pystr pystr) :
  match fd !! lit "mime_type" with
  | Some _ => ∃ blocks, attachment_blocks fd = Ok blocks
                        ∧ (length blocks ≤ 1)%nat ∧ Forall is_content_block blocks
  | None => attachment_blocks fd = Raise (KeyError (lit "mime_type"))
  end.
Proof.
  unfold attachment_blocks, dict_getitem.
  destruct (fd !! lit "mime_type") as [m|]; [|done]. result_simpl.
  repeat case_match; result_simpl; eexists; (split; [done|]); (split; [simpl; lia|]);
    repeat constructor; eexists; (split; [done|]); by (left + right).
Qed.

(** X1: building the content fails only for an attachment that is a
    non-empty dict without [mime_type], and then with the [KeyError] of that
    key. *)
Theorem build_content_raises_iff (prompt : pystr) (file_data : option (gmap pystr pystr))
    (e : pyexn) :
  _build_content prompt file_data = Raise e
  ↔ e = KeyError (lit "mime_type")
    ∧ ∃ fd, file_data = Some fd ∧ fd ≠ ∅ ∧ fd !! lit "mime_type" = None.
Proof.
  unfold _build_content. destruct file_data as [fd|]; result_simpl.
  - destruct (Nat.eqb (size fd) 0) eqn:Hs; simpl negb; cbv iota.
    + apply size_zero_empty in Hs. subst. result_simpl. split; [done|].
      intros (_ & fd & [= <-] & Hne & _). done.
    + assert (fd ≠ ∅) by (intros ->; by rewrite map_size_empty in Hs).
      pose proof (attachment_blocks_result fd) as Hb.
      destruct (fd !! lit "mime_type") as [m|] eqn:Hm.
      * destruct Hb as (blocks & -> & _). result_simpl. split; [done|].
        intros (_ & fd' & [= <-] & _ & Hn). congruence.
      * rewrite Hb. result_simpl. split.
        -- intros [= <-]. eauto.
        -- by intros (-> & _).
  - split; [done|]. by intros (_ & fd & ? & _).
Qed.

(** X2: a content list that builds has one or two blocks, each a dict whose
    [type] is [text] or [image_url]: an attachment never adds more than one
    block. *)
Theorem build_content_shape (prompt : pystr) (file_data : option (gmap pystr pystr))
    (content : list pyval) :
  _build_content prompt file_data = Ok content →
  (1 ≤ length content ≤ 2)%nat ∧ Forall is_content_block content.
Proof.
  assert (Hp : is_content_block (text_block prompt)).
  { eexists. split; [done|]. by left. }
  unfold _build_content. destruct file_data as [fd|]; result_simpl.
  - destruct (negb _).
    + pose proof (attachment_blocks_result fd) as Hb.
      destruct (fd !! lit "mime_type").
      * destruct Hb as (blocks & -> & Hl & Hf). result_simpl. intros [= <-].
        rewrite length_app. simpl. split; [lia|]. apply Forall_app. by repeat constructor.
      * by rewrite Hb.
    + result_simpl. intros [= <-]. simpl. split; [lia|]. by repeat constructor.
  - intros [= <-]. simpl. split; [lia|]. by repeat constructor.
Qed.

Lemma build_content_shape_witness :
  (1 ≤ length [image_block (data_uri (lit "image/png") (lit "iVBORw0KGgo="));
               text_block (lit "Describe")] ≤ 2)%nat
  ∧ Forall is_content_block
      [image_block (data_uri (lit "image/png") (lit "iVBORw0KGgo="));
       text_block (lit "Describe")].
Proof.
  apply (build_content_shape (lit "Describe")
           (Some (py_dict [ (lit "mime_type", lit "image/png");
                            (lit "data", lit "iVBORw0KGgo=") ]))).
  reflexivity.
Defined.

(** X3: a missing [filename] stands for [input.bin] and a missing [data]
    for the empty string: writing these defaults into an attachment that has
    a [mime_type] changes nothing of the content list. *)
Theorem build_content_defaults (prompt : pystr) (fd : gmap pystr pystr) (m : pystr) :
  fd !! lit "mime_type" = Some m →
  _build_content prompt (Some (with_defaults fd)) = _build_content prompt (Some fd).
Proof.
  intros Hm.
  assert (Hm' : with_defaults fd !! lit "mime_type" = Some m).
  { unfold with_defaults. by rewrite !lookup_insert_ne by (by apply lit_neq). }
  assert (Hd : dict_get (with_defaults fd) (lit "data") (lit "")
               = dict_get fd (lit "data") (lit "")).
  { unfold with_defaults, dict_get at 1.
    rewrite lookup_insert_ne by (by apply lit_neq). by rewrite lookup_insert_eq. }
  assert (Hf : dict_get (with_defaults fd) (lit "filename") (lit "input.bin")
               = dict_get fd (lit "filename") (lit "input.bin")).
  { unfold with_defaults, dict_get at 1. by rewrite lookup_insert_eq. }
  rewrite (build_content_Some _ _ _ Hm), (build_content_Some _ _ _ Hm').
  unfold attachment_blocks, dict_getitem. by rewrite Hm, Hm', Hd, Hf.
Qed.

Lemma build_content_defaults_witness :
  _build_content (lit "Read it")
    (Some (with_defaults (py_dict [ (lit "mime_type", lit "application/pdf") ])))
  = _build_content (lit "Read it")
      (Some (py_dict [ (lit "mime_type", lit "application/pdf") ])).
Proof.
  apply (build_content_defaults (lit "Read it")
           (py_dict [ (lit "mime_type", lit "application/pdf") ])
           (lit "application/pdf")).
  reflexivity.
Defined.

(** X4: a textual attachment whose data holds a character outside ASCII is
    left out without an error: base64 decoding raises, and the handler puts
    the empty text in its place. *)
Theorem non_ascii_data_is_dropped (prompt : pystr) (fd : gmap pystr pystr)
    (m : pystr) (c : N) :
  fd !! lit "mime_type" = Some m →
  startswith (lit "text/") m = true →
  c ∈ dict_get fd (lit "data") (lit "") →
  128 ≤ c →
  _build_content prompt (Some fd) = Ok [text_block prompt].
Proof.
  intros Hm Ht Hc Hge. rewrite (build_content_Some _ _ _ Hm).
  unfold attachment_blocks, dict_getitem. rewrite Hm. result_simpl.
  rewrite (text_not_image _ Ht), Ht. unfold decode_attachment, b64decode.
  assert (Hf : forallb (λ c, c <? 128) (dict_get fd (lit "data") (lit "")) = false).
  { apply not_true_iff_false. intros H. rewrite forallb_forall in H.
    apply list_elem_of_In in Hc. specialize (H _ Hc). apply N.ltb_lt in H. lia. }
  by rewrite Hf.
Qed.

Lemma non_ascii_data_is_dropped_witness :
  _build_content (lit "Summarise")
    (Some (py_dict [ (lit "mime_type", lit "text/plain"); (lit "data", [233; 65]) ]))
  = Ok [text_block (lit "Summarise")].
Proof.
  apply (non_ascii_data_is_dropped (lit "Summarise")
           (py_dict [ (lit "mime_type", lit "text/plain"); (lit "data", [233; 65]) ])
           (lit "text/plain") 233).
  - reflexivity.
  - reflexivity.
  - apply list_elem_of_here.
  - discriminate.
Defined.

(** ** Further properties of the payload and the requests *)

Lemma build_payload_unfold (self : OpenAIProvider) (prompt : pystr)
    (system_instruction : option pystr) (file_data : option (gmap pystr pystr))
    (stream : bool) :
  _build_payload self prompt system_instruction file_data stream
  = match _build_content prompt file_data with
    | Ok content =>
      let payload :=
        py_dict [ (lit "model", PStr (model (config self)));
                  (lit "messages",
                   PList (match system_instruction with
                          | Some si => if truthy (PStr si) then [system_message si] else []
                          | None => []
                          end ++ [user_message content]));
                  (lit "max_tokens", max_tokens (config self));
                  (lit "temperature", temperature (config self));
                  (lit "top_p", top_p (config self)) ] in
      Ok (if stream then <[lit "stream" := PBool true]> payload else payload)
    | Raise e => Raise e
    end.
Proof.
  unfold _build_payload. by destruct (_build_content prompt file_data).
Qed.

(** X5: [stream] and [query] build the same payload but for the entry
    [stream: True], which only the streaming payload has; and one fails
    exactly when the other does, with the same exception. *)
Theorem stream_flag_only_adds_stream_key (self : OpenAIProvider) (prompt : pystr)
    (system_instruction : option pystr) (file_data : option (gmap pystr pystr)) :
  match _build_payload self prompt system_instruction file_data false with
  | Ok payload =>
    payload !! lit "stream" = None
    ∧ _build_payload self prompt system_instruction file_data true
      = Ok (<[lit "stream" := PBool true]> payload)
  | Raise e =>
    _build_payload self prompt system_instruction file_data true = Raise e
  end.
Proof.
  rewrite !build_payload_unfold.
  destruct (_build_content prompt file_data) as [content|e]; [|done].
  cbv zeta. split; [|done]. unfold py_dict. cbn [foldl fst snd].
  by repeat (rewrite lookup_insert_ne by (by apply lit_neq)).
Qed.

(** X6: the messages of a payload are the system message, present only for
    a system instruction that is not empty, followed by the user message
    that holds the content list; an empty system instruction is the same as
    none. *)
Theorem payload_messages (self : OpenAIProvider) (prompt : pystr)
    (system_instruction : option pystr) (file_data : option (gmap pystr pystr))
    (stream : bool) (content : list pyval) :
  _build_content prompt file_data = Ok content →
  ∃ payload,
    _build_payload self prompt system_instruction file_data stream = Ok payload
    ∧ payload !! lit "messages"
      = Some (PList (match system_instruction with
                     | Some (c :: si) => [system_message (c :: si); user_message content]
                     | Some [] | None => [user_message content]
                     end))
    ∧ _build_payload self prompt (Some []) file_data stream
      = _build_payload self prompt None file_data stream.
Proof.
  intros Hc. rewrite !build_payload_unfold, Hc. cbv zeta.
  eexists. split; [done|]. split; [|done].
  assert (Hm : ∀ d : gmap pystr pyval,
            (if stream then <[lit "stream" := PBool true]> d else d) !! lit "messages"
            = d !! lit "messages").
  { intros d. destruct stream; [|done]. by rewrite lookup_insert_ne by (by apply lit_neq). }
  rewrite Hm. unfold py_dict. cbn [foldl fst snd].
  do 3 (rewrite lookup_insert_ne by (by apply lit_neq)). rewrite lookup_insert_eq.
  by destruct system_instruction as [[|c si]|].
Qed.

Lemma payload_messages_witness :
  ∃ payload,
    _build_payload gpt4o_provider (lit "Hello") (Some (lit "Be brief")) None false
    = Ok payload
    ∧ payload !! lit "messages"
      = Some (PList [system_message (lit "Be brief");
                     user_message [text_block (lit "Hello")]])
    ∧ _build_payload gpt4o_provider (lit "Hello") (Some []) None false
      = _build_payload gpt4o_provider (lit "Hello") None None false.
Proof.
  apply (payload_messages gpt4o_provider (lit "Hello") (Some (lit "Be brief")) None false
           [text_block (lit "Hello")]).
  reflexivity.
Defined.

Lemma build_headers_entries (self : OpenAIProvider) :
  _build_headers self !! lit "Content-Type" = Some (lit "application/json")
  ∧ _build_headers self !! lit "Authorization" = Some (lit "Bearer " ++ api_key self)
  ∧ dom (_build_headers self)
    = {[ lit "Content-Type"; lit "Authorization"; lit "X-OpenAI-No-Store" ]}.
Proof.
  unfold _build_headers, py_dict. cbn [foldl fst snd]. split; [|split].
  - by do 2 (rewrite lookup_insert_ne by (by apply lit_neq)); rewrite lookup_insert_eq.
  - by rewrite lookup_insert_ne by (by apply lit_neq); rewrite lookup_insert_eq.
  - rewrite !dom_insert_L, dom_empty_L. set_solver.
Qed.

Section RequestFacts.
Variable OPENAI_URL : pystr.
Variable requests_post : Request → PostOutcome.
Variables depth query_depth : nat.

Lemma query_sent (self : OpenAIProvider) (prompt : pystr)
    (system_instruction : option pystr) (file_data : option (gmap pystr pystr)) :
  (query OPENAI_URL requests_post query_depth self prompt system_instruction file_data).1
  = match _build_payload self prompt system_instruction file_data false with
    | Ok payload => [posted OPENAI_URL self payload false]
    | Raise _ => []
    end.
Proof. unfold query. by destruct (_build_payload _ _ _ _ _). Qed.

Lemma stream_sent (self : OpenAIProvider) (prompt : pystr)
    (system_instruction : option pystr) (file_data : option (gmap pystr pystr)) :
  sent (stream OPENAI_URL requests_post depth self prompt system_instruction file_data)
  = match _build_payload self prompt system_instruction file_data true with
    | Ok payload => [posted OPENAI_URL self payload true]
    | Raise _ => []
    end.
Proof.
  unfold stream. destruct (_build_payload _ _ _ _ _); [|done]. cbv zeta.
  destruct (requests_post _) as [e|r]; [done|]. destruct (negb (ok r)); [done|].
  by destruct (stream_loop depth _ _ _) as [? [?|?]].
Qed.

(** X7: [query] and [stream] send at most one request each, both to
    [OPENAI_URL] and with the same headers; the request of [query] is not
    streamed and that of [stream] is, and their bodies differ by the entry
    [stream: True] alone. *)
Theorem query_and_stream_requests (self : OpenAIProvider) (prompt : pystr)
    (system_instruction : option pystr) (file_data : option (gmap pystr pystr)) :
  match (query OPENAI_URL requests_post query_depth self prompt system_instruction file_data).1,
        sent (stream OPENAI_URL requests_post depth self prompt system_instruction file_data)
  with
  | [q], [s] =>
    req_url q = OPENAI_URL ∧ req_url s = OPENAI_URL
    ∧ req_headers q = req_headers s
    ∧ req_stream q = false ∧ req_stream s = true
    ∧ req_data q !! lit "stream" = None
    ∧ req_data s = <[lit "stream" := PBool true]> (req_data q)
  | [], [] => ∃ e, _build_content prompt file_data = Raise e
  | _, _ => False
  end.
Proof.
  rewrite query_sent, stream_sent, !build_payload_unfold.
  destruct (_build_content prompt file_data) as [content|e]; [|eauto].
  cbv zeta. cbn [posted req_url req_headers req_stream req_data].
  repeat split.
Qed.

(** X8: every request sent carries the key as [Authorization: Bearer <key>]
    and the JSON content type, and no header besides these two and the
    no-store one. *)
Theorem requests_carry_the_key (self : OpenAIProvider) (prompt : pystr)
    (system_instruction : option pystr) (file_data : option (gmap pystr pystr)) :
  Forall (λ request,
            req_headers request !! lit "Authorization"
            = Some (lit "Bearer " ++ api_key self)
            ∧ req_headers request !! lit "Content-Type" = Some (lit "application/json")
            ∧ dom (req_headers request)
              = {[ lit "Content-Type"; lit "Authorization"; lit "X-OpenAI-No-Store" ]})
    ((query OPENAI_URL requests_post query_depth self prompt system_instruction file_data).1
     ++ sent (stream OPENAI_URL requests_post depth self prompt system_instruction file_data)).
Proof.
  rewrite query_sent, stream_sent.
  destruct (build_headers_entries self) as (Hc & Ha & Hd).
  apply Forall_app. split; case_match; by repeat constructor.
Qed.

(** X9: an attachment that is a non-empty dict without [mime_type] makes
    [query] and [stream] fail with the bare [KeyError], before anything is
    sent, yielded or logged. *)
Theorem malformed_attachment_fails_before_sending (self : OpenAIProvider)
    (prompt : pystr) (system_instruction : option pystr) (fd : gmap pystr pystr) :
  fd ≠ ∅ →
  fd !! lit "mime_type" = None →
  query OPENAI_URL requests_post query_depth self prompt system_instruction (Some fd)
  = ([], Raise (KeyError (lit "mime_type")))
  ∧ stream OPENAI_URL requests_post depth self prompt system_instruction (Some fd)
    = {| sent := []; yielded := []; logged := [];
         raised := Some (KeyError (lit "mime_type")) |}.
Proof.
  intros Hne Hm.
  assert (Hc : ∀ prompt, _build_content prompt (Some fd) = Raise (KeyError (lit "mime_type"))).
  { intros p. unfold _build_content.
    destruct (Nat.eqb (size fd) 0) eqn:Hs.
    - apply Nat.eqb_eq, map_size_empty_iff in Hs. done.
    - simpl negb. cbv iota. unfold attachment_blocks, dict_getitem. by rewrite Hm. }
  unfold query, stream. rewrite !build_payload_unfold, Hc. done.
Qed.

(** X10: when the server answers, [query] raises the [APIError] with the
    status and the body for a status from 400 to 599, and otherwise parses
    the body as JSON, whatever the status; its result is then the parsed
    value or the error of the JSON decoder, never an [APIError]. *)
Theorem query_result_by_status (self : OpenAIProvider) (prompt : pystr)
    (system_instruction : option pystr) (file_data : option (gmap pystr pystr))
    (payload : gmap pystr pyval) (r : Response) :
  _build_payload self prompt system_instruction file_data false = Ok payload →
  requests_post (posted OPENAI_URL self payload false) = PostReturns r →
  (query OPENAI_URL requests_post query_depth self prompt system_instruction file_data).2
  = (if (400 <=? status_code r)%Z && (status_code r <? 600)%Z
     then Raise (APIError (lit "OpenAI API error: " ++ text r)
                          (Some (status_code r)) (Some (text r)))
     else json_loads query_depth (text r))
  ∧ ∀ e, json_loads query_depth (text r) = Raise e → class_of e ≠ CAPIError.
Proof.
  intros Hp Hpost. split.
  - unfold query. rewrite Hp. cbv zeta. unfold posted in Hpost. rewrite Hpost.
    unfold ok, api_error, json. cbn [snd]. by destruct (_ && _).
  - intros e He. apply json_loads_raises in He as [->|[[n ->]|(doing & -> & _)]]; done.
Qed.
End RequestFacts.

Lemma malformed_attachment_fails_before_sending_witness :
  query example_url refusing example_depth gpt4o_provider (lit "Hello") None
    (Some (py_dict [ (lit "filename", lit "a.txt") ]))
  = ([], Raise (KeyError (lit "mime_type")))
  ∧ stream example_url refusing example_depth gpt4o_provider (lit "Hello") None
      (Some (py_dict [ (lit "filename", lit "a.txt") ]))
    = {| sent := []; yielded := []; logged := [];
         raised := Some (KeyError (lit "mime_type")) |}.
Proof.
  apply (malformed_attachment_fails_before_sending example_url refusing example_depth
           example_depth gpt4o_provider
           (lit "Hello") None (py_dict [ (lit "filename", lit "a.txt") ])).
  - intros H. apply (f_equal (λ d : gmap pystr pystr, d !! lit "filename")) in H.
    discriminate H.
  - reflexivity.
Defined.

Lemma query_result_by_status_witness :
  (query example_url (answering server_error) example_depth gpt4o_provider (lit "Hello") None None).2
  = Raise (APIError (lit "OpenAI API error: Internal Server Error") (Some 500%Z)
                    (Some (lit "Internal Server Error")))
  ∧ ∀ e, json_loads example_depth (lit "Internal Server Error") = Raise e
         → class_of e ≠ CAPIError.
Proof.
  destruct (_build_payload gpt4o_provider (lit "Hello") None None false)
    as [payload|e] eqn:Hp; [|discriminate Hp].
  exact (query_result_by_status example_url (answering server_error) example_depth
           gpt4o_provider
           (lit "Hello") None None payload server_error Hp eq_refl).
Defined.

(** ** Further properties of the streaming loop *)

Section StreamingFacts.
Variable OPENAI_URL : pystr.
Variable requests_post : Request → PostOutcome.
Variables depth query_depth : nat.

Lemma decode_strict_items_raises b pos items e :
  decode_strict_items b pos items = Raise e → ∃ m, e = UnicodeDecodeError m.
Proof.
  revert pos. induction items as [|[cp len|len why] items IH]; intros pos; simpl.
  - done.
  - destruct (decode_strict_items b (pos + len) items) eqn:E; [done|].
    intros [= <-]. eauto.
  - intros [= <-]. eauto.
Qed.

Lemma choice_delta_text_truthy (choice text : pyval) :
  choice_delta_text choice = Some text → truthy text = true.
Proof.
  unfold choice_delta_text. repeat case_match; try done. by intros [= <-].
Qed.

Lemma chunk_texts_result (chunk : pyval) :
  match chunk_texts chunk with
  | Ok texts => Forall (λ v, truthy v = true) texts
  | Raise e => ∃ m, e = TypeError m
  end.
Proof.
  unfold chunk_texts, py_contains, py_getitem, dict_getitem.
  destruct chunk as [| | | | s|l|d]; result_simpl; eauto.
  - by destruct (str_contains _ _); result_simpl; eauto.
  - by destruct (existsb _ _); result_simpl; eauto.
  - case_bool_decide as Hd; result_simpl; [|done].
    destruct Hd as [v ->]. result_simpl. destruct v; try apply Forall_nil_2.
    apply Forall_forall. intros t Ht.
    apply list_elem_of_omap in Ht as (c & _ & Hc). by eapply choice_delta_text_truthy.
Qed.

Lemma process_line_result (line : pybytes) :
  match process_line depth line with
  | Continue texts => Forall (λ v, truthy v = true) texts
  | Break => decode_utf8 line = Ok (lit "data: " ++ lit "[DONE]")
  | Fail e => interruption e
  end.
Proof.
  unfold process_line. destruct (negb _); [|done].
  destruct (decode_utf8 line) as [line_text|e] eqn:Hd.
  - destruct (startswith (lit "data: ") line_text) eqn:Hs; [|done].
    apply startswith_prefix in Hs as [data ->].
    change (drop 6 (lit "data: " ++ data)) with data.
    unfold str_eqb. case_bool_decide as Hdone; [by subst|].
    destruct (json_loads depth data) as [chunk|e] eqn:Hj; result_simpl.
    + pose proof (chunk_texts_result chunk) as Hc.
      destruct (chunk_texts chunk) as [texts|e]; [done|]. by destruct Hc as [m ->].
    + apply json_loads_raises in Hj as [->|[[n ->]|(doing & -> & _)]]; done.
  - apply decode_strict_items_raises in Hd as [m ->]. done.
Qed.

Lemma stream_loop_result (lines : list pybytes) (broken : option pystr) (n : nat) :
  Forall (λ v, truthy v = true) (stream_loop depth lines broken n).1
  ∧ match (stream_loop depth lines broken n).2 with
    | inl e => interruption e
    | inr _ => True
    end.
Proof.
  revert n. induction lines as [|line rest IH]; intros n; simpl.
  - by destruct broken.
  - pose proof (process_line_result line) as Hl.
    destruct (process_line depth line) as [texts| |e]; [|done|done].
    specialize (IH (n + length texts)%nat).
    destruct (stream_loop depth rest broken _) as [more fin]. simpl in *.
    split; [|apply IH]. apply Forall_app. split; [done|apply IH].
Qed.

Lemma stream_loop_prefix (l1 l2 : list pybytes) (broken : option pystr) (n : nat) :
  (stream_loop depth l1 None n).1 `prefix_of` (stream_loop depth (l1 ++ l2) broken n).1.
Proof.
  rewrite stream_loop_app.
  destruct (stream_loop depth l1 None n) as [texts [e|m]]; [done|].
  destruct (forallb _ l1); [|done].
  destruct (stream_loop depth l2 broken m) as [more fin]. simpl. by apply prefix_app_r.
Qed.

Lemma stream_loop_done (before after : list pybytes) (line : pybytes)
    (broken : option pystr) (n : nat) :
  process_line depth line = Break →
  stream_loop depth (before ++ line :: after) broken n = stream_loop depth (before ++ [line]) None n.
Proof.
  intros Hb. rewrite !stream_loop_app.
  destruct (stream_loop depth before None n) as [texts [e|m]]; [done|].
  destruct (forallb _ before); [|done]. simpl. by rewrite Hb.
Qed.

Lemma stream_of_loop (self : OpenAIProvider) (prompt : pystr)
    (system_instruction : option pystr) (file_data : option (gmap pystr pystr))
    (payload : gmap pystr pyval) (r : Response) :
  _build_payload self prompt system_instruction file_data true = Ok payload →
  requests_post (posted OPENAI_URL self payload true) = PostReturns r →
  ok r = true →
  stream OPENAI_URL requests_post depth self prompt system_instruction file_data
  = match stream_loop depth (lines r) (broken r) 0 with
    | (texts, inr chunks_received) =>
      {| sent := [posted OPENAI_URL self payload true]; yielded := texts;
         logged := if Nat.eqb chunks_received 0
                   then [(ERROR, empty_stream_message)] else [];
         raised := None |}
    | (texts, inl e) =>
      {| sent := [posted OPENAI_URL self payload true]; yielded := texts; logged := [];
         raised := Some (StreamingError (lit "Streaming interrupted: " ++ exn_str e)) |}
    end.
Proof.
  intros Hp Hpost Hok. unfold stream. rewrite Hp. cbv zeta.
  unfold posted in *. by rewrite Hpost, Hok.
Qed.

(** X11: nothing that follows the line [data: [DONE]] has any effect:
    later lines, well formed or not, are not read, and a connection that
    breaks afterwards is not noticed. *)
Theorem nothing_after_done (self : OpenAIProvider) (prompt : pystr)
    (system_instruction : option pystr) (file_data : option (gmap pystr pystr))
    (r : Response) (before after : list pybytes) (line : pybytes) :
  stream_receives OPENAI_URL requests_post self prompt system_instruction file_data r →
  lines r = before ++ line :: after →
  decode_utf8 line = Ok (lit "data: [DONE]") →
  stream OPENAI_URL requests_post depth self prompt system_instruction file_data
  = stream OPENAI_URL (answering (with_lines r (before ++ [line]) None)) depth
      self prompt system_instruction file_data.
Proof.
  intros (payload & Hp & Hpost & Hok) Hl Hd.
  assert (Hb : process_line depth line = Break).
  { unfold process_line. rewrite Hd. by destruct line. }
  rewrite (stream_of_loop _ _ _ _ _ _ Hp Hpost Hok).
  unfold stream. rewrite Hp. cbv zeta. unfold answering, with_lines, ok in *.
  cbn [status_code lines broken]. rewrite Hok. simpl negb. cbv iota.
  by rewrite Hl, (stream_loop_done _ _ _ _ _ Hb).
Qed.

(** X12: every value the generator yields is true: an empty or null
    content is never passed on as a chunk. *)
Theorem yielded_chunks_are_true (self : OpenAIProvider) (prompt : pystr)
    (system_instruction : option pystr) (file_data : option (gmap pystr pystr)) :
  Forall (λ v, truthy v = true)
    (yielded (stream OPENAI_URL requests_post depth self prompt system_instruction file_data)).
Proof.
  unfold stream. destruct (_build_payload _ _ _ _ _); [|done]. cbv zeta.
  destruct (requests_post _) as [e|r]; [done|]. destruct (negb (ok r)); [done|].
  pose proof (stream_loop_result (lines r) (broken r) 0) as [Hy _].
  by destruct (stream_loop depth _ _ _) as [texts [e|m]].
Qed.

(** X13: when the loop is interrupted, the cause is an exception of the
    operations the loop performs or of the transport: [UnicodeDecodeError]
    (a line that cannot be decoded), [ValueError] or [RecursionError]
    (raised by [json.loads] on the payload), [TypeError] (a payload of the
    wrong type) or [RequestException] (a broken connection).  The chunks
    yielded so far stay yielded, the exception raised is a [StreamingError]
    whose message ends with the text of the cause, and the empty-stream
    error is not logged. *)
Theorem interrupted_stream_keeps_chunks (self : OpenAIProvider) (prompt : pystr)
    (system_instruction : option pystr) (file_data : option (gmap pystr pystr))
    (r : Response) (texts : list pyval) (e : pyexn) :
  stream_receives OPENAI_URL requests_post self prompt system_instruction file_data r →
  stream_loop depth (lines r) (broken r) 0 = (texts, inl e) →
  let run := stream OPENAI_URL requests_post depth self prompt system_instruction file_data in
  interruption e
  ∧ yielded run = texts
  ∧ raised run = Some (StreamingError (lit "Streaming interrupted: " ++ exn_str e))
  ∧ logged run = [].
Proof.
  intros (payload & Hp & Hpost & Hok) Hloop. cbv zeta.
  rewrite (stream_of_loop _ _ _ _ _ _ Hp Hpost Hok), Hloop.
  pose proof (stream_loop_result (lines r) (broken r) 0) as [_ He].
  rewrite Hloop in He. done.
Qed.

(** X14: a JSON payload that is null, a boolean or a number interrupts the
    stream: the membership test on it raises [TypeError], which only the
    outer handler catches. *)
Theorem scalar_payload_interrupts (self : OpenAIProvider) (prompt : pystr)
    (system_instruction : option pystr) (file_data : option (gmap pystr pystr))
    (r : Response) (line : pybytes) (rest : list pybytes) (data : pystr) (v : pyval) :
  stream_receives OPENAI_URL requests_post self prompt system_instruction file_data r →
  lines r = line :: rest →
  decode_utf8 line = Ok (lit "data: " ++ data) →
  json_loads depth data = Ok v →
  json_scalar v = true →
  let run := stream OPENAI_URL requests_post depth self prompt system_instruction file_data in
  yielded run = []
  ∧ raised run
    = Some (StreamingError (lit "Streaming interrupted: argument of type '"
                            ++ type_name v ++ lit "' is not iterable")).
Proof.
  intros (payload & Hp & Hpost & Hok) Hl Hd Hj Hv. cbv zeta.
  rewrite (stream_of_loop _ _ _ _ _ _ Hp Hpost Hok), Hl.
  assert (Hline : process_line depth line
                  = Fail (TypeError (lit "argument of type '" ++ type_name v
                                     ++ lit "' is not iterable"))).
  { unfold process_line. rewrite Hd. destruct line; [done|]. simpl negb. cbv iota.
    rewrite startswith_app. change (drop 6 (lit "data: " ++ data)) with data.
    unfold str_eqb. case_bool_decide as Hdone.
    { subst. destruct depth; vm_compute in Hj; discriminate. }
    rewrite Hj. by destruct v. }
  simpl. rewrite Hline. done.
Qed.
End StreamingFacts.

(** X15: the chunks come in the order of the lines and are never taken
    back: what a body yields is a prefix of what any longer body yields,
    however the longer one ends. *)
Theorem yielded_chunks_grow (OPENAI_URL : pystr) (depth : nat)
    (self : OpenAIProvider) (prompt : pystr)
    (system_instruction : option pystr) (file_data : option (gmap pystr pystr))
    (r : Response) (received later : list pybytes) (ending : option pystr) :
  yielded (stream OPENAI_URL (answering (with_lines r received None)) depth
             self prompt system_instruction file_data)
  `prefix_of`
  yielded (stream OPENAI_URL (answering (with_lines r (received ++ later) ending)) depth
             self prompt system_instruction file_data).
Proof.
  unfold stream. destruct (_build_payload _ _ _ _ _); [|done]. cbv zeta.
  unfold answering, with_lines, ok. cbn [status_code lines broken].
  destruct (negb _); [done|].
  pose proof (stream_loop_prefix depth received later ending 0) as Hpre.
  destruct (stream_loop depth received None 0) as [t1 [e1|m1]];
    destruct (stream_loop depth (received ++ later) ending 0) as [t2 [e2|m2]]; done.
Qed.

Lemma example_stream_receives (r : Response) :
  ok r = true →
  stream_receives example_url (answering r) gpt4o_provider (lit "Hello") None None r.
Proof.
  intros Hok.
  destruct (_build_payload gpt4o_provider (lit "Hello") None None true)
    as [payload|e] eqn:Hp; [|discriminate Hp].
  exists payload. by repeat split.
Defined.

Lemma nothing_after_done_witness :
  stream example_url (answering (streamed [hi_event; done_event; [xff]])) example_depth
    gpt4o_provider (lit "Hello") None None
  = stream example_url (answering (streamed [hi_event; done_event])) example_depth
      gpt4o_provider (lit "Hello") None None.
Proof.
  exact (nothing_after_done example_url
           (answering (streamed [hi_event; done_event; [xff]])) example_depth
           gpt4o_provider (lit "Hello") None None
           (streamed [hi_event; done_event; [xff]]) [hi_event] [[xff]] done_event
           (example_stream_receives (streamed [hi_event; done_event; [xff]]) eq_refl)
           eq_refl eq_refl).
Defined.

Lemma interrupted_stream_keeps_chunks_witness :
  let run := stream example_url
               (answering (with_lines (streamed [hi_event]) [hi_event]
                             (Some (lit "Connection broken")))) example_depth
               gpt4o_provider (lit "Hello") None None in
  interruption (RequestException (lit "Connection broken"))
  ∧ yielded run = [PStr (lit "hi")]
  ∧ raised run = Some (StreamingError (lit "Streaming interrupted: Connection broken"))
  ∧ logged run = [].
Proof.
  exact (interrupted_stream_keeps_chunks example_url
           (answering (with_lines (streamed [hi_event]) [hi_event]
                         (Some (lit "Connection broken")))) example_depth
           gpt4o_provider (lit "Hello") None None
           (with_lines (streamed [hi_event]) [hi_event] (Some (lit "Connection broken")))
           [PStr (lit "hi")] (RequestException (lit "Connection broken"))
           (example_stream_receives
              (with_lines (streamed [hi_event]) [hi_event] (Some (lit "Connection broken")))
              eq_refl)
           eq_refl).
Defined.

Lemma scalar_payload_interrupts_witness :
  let run := stream example_url (answering (streamed [event_line "data: null"; hi_event])) example_depth
               gpt4o_provider (lit "Hello") None None in
  yielded run = []
  ∧ raised run
    = Some (StreamingError
              (lit "Streaming interrupted: argument of type 'NoneType' is not iterable")).
Proof.
  exact (scalar_payload_interrupts example_url
           (answering (streamed [event_line "data: null"; hi_event])) example_depth
           gpt4o_provider (lit "Hello") None None
           (streamed [event_line "data: null"; hi_event])
           (event_line "data: null") [hi_event] (lit "null") PNone
           (example_stream_receives (streamed [event_line "data: null"; hi_event]) eq_refl)
           eq_refl eq_refl eq_refl eq_refl).
Defined.

(** ** Further properties of [extract_text] *)

Lemma first_content_skip (bad rest : list pyval) :
  Forall (λ choice, choice_message_content choice = None) bad →
  first_content (bad ++ rest) = first_content rest.
Proof. induction 1 as [|c bad Hc _ IH]; simpl; [done|]. by rewrite Hc. Qed.

Lemma first_content_truthy (choices : list pyval) (content : pyval) :
  first_content choices = Some content → truthy content = true.
Proof.
  induction choices as [|c choices IH]; simpl; [done|].
  destruct (choice_message_content c) as [v|] eqn:Hc; [|done].
  intros [= <-]. unfold choice_message_content in Hc.
  repeat case_match; try done. by simplify_eq.
Qed.

(** X16: for a response in the documented shape, whose first choice has a
    message with a text that is not empty, [extract_text] returns that
    text, whatever else the response and the later choices hold. *)
Theorem extract_text_first_choice (response choice message : gmap pystr pyval)
    (rest : list pyval) (s : pystr) :
  response !! lit "choices" = Some (PList (PDict choice :: rest)) →
  choice !! lit "message" = Some (PDict message) →
  message !! lit "content" = Some (PStr s) →
  s ≠ [] →
  extract_text response = PStr s.
Proof.
  intros Hr Hc Hm Hs. unfold extract_text. rewrite Hr. simpl.
  unfold dict_get. rewrite Hc. simpl. rewrite Hm. simpl.
  by rewrite bool_decide_eq_false_2.
Qed.

Lemma extract_text_first_choice_witness :
  extract_text
    (py_dict [ (lit "id", PStr (lit "chatcmpl-1"));
               (lit "choices",
                PList [PDict (py_dict [ (lit "message",
                                         PDict (py_dict [ (lit "content",
                                                           PStr (lit "Hi there")) ])) ])]) ])
  = PStr (lit "Hi there").
Proof.
  apply (extract_text_first_choice _
           (py_dict [ (lit "message", PDict (py_dict [ (lit "content", PStr (lit "Hi there")) ])) ])
           (py_dict [ (lit "content", PStr (lit "Hi there")) ]) [] (lit "Hi there"));
    [reflexivity|reflexivity|reflexivity|discriminate].
Defined.

(** X17: choices without a usable text (not a dict, a message that is not a
    dict, a content that is missing, null or empty) are passed over: the text
    is that of the first choice that has one. *)
Theorem extract_text_skips_choices (response : gmap pystr pyval)
    (bad rest : list pyval) :
  Forall (λ choice, choice_message_content choice = None) bad →
  extract_text (<[lit "choices" := PList (bad ++ rest)]> response)
  = extract_text (<[lit "choices" := PList rest]> response).
Proof.
  intros Hbad. unfold extract_text. rewrite !lookup_insert_eq.
  by rewrite (first_content_skip _ _ Hbad).
Qed.

Lemma extract_text_skips_choices_witness :
  extract_text
    (<[lit "choices" :=
         PList ([PNone; PDict (py_dict [ (lit "message", PDict (py_dict [ (lit "content", PNone) ])) ])]
                ++ [PDict (py_dict [ (lit "message",
                                      PDict (py_dict [ (lit "content", PStr (lit "ok")) ])) ])])]> ∅)
  = extract_text
      (<[lit "choices" :=
           PList [PDict (py_dict [ (lit "message",
                                    PDict (py_dict [ (lit "content", PStr (lit "ok")) ])) ])]]> ∅).
Proof.
  apply (extract_text_skips_choices ∅
           [PNone; PDict (py_dict [ (lit "message", PDict (py_dict [ (lit "content", PNone) ])) ])]).
  repeat constructor.
Defined.

(** X18: [extract_text] returns the empty string or a value that is true;
    it returns the empty string whenever [choices] is missing or is not a
    list. *)
Theorem extract_text_empty_or_true (response : gmap pystr pyval) :
  (extract_text response = PStr [] ∨ truthy (extract_text response) = true)
  ∧ match response !! lit "choices" with
    | Some (PList _) => True
    | _ => extract_text response = PStr []
    end.
Proof.
  unfold extract_text. destruct (response !! lit "choices") as [v|]; [|by split; [left|]].
  destruct v; try (by split; [left|]).
  split; [|done]. destruct (first_content l) as [c|] eqn:Hc; [|by left].
  right. by eapply first_content_truthy.
Qed.

(** ** The callbacks of the feature demo *)

Lemma abort_answers_from (max_chunks : nat) (texts : list pystr) (n : nat) (out : pystr) :
  answers (abort_on_chunk max_chunks) (n, out) texts
  = (λ k, negb (Nat.leb max_chunks k)) <$> seq (S n) (length texts).
Proof.
  revert n out. induction texts as [|t texts IH]; intros n out; [done|].
  cbn [answers]. unfold abort_on_chunk at 1. cbn [fst snd].
  destruct (Nat.leb max_chunks (S n)) eqn:E; simpl; rewrite IH; by rewrite E.
Qed.

(** X19: the abort callback of the demo lets the first [max_chunks - 1]
    chunks pass and asks to stop at every chunk from the [max_chunks]-th on. *)
Theorem abort_on_chunk_answers (max_chunks : nat) (texts : list pystr) :
  answers (abort_on_chunk max_chunks) (0%nat, []) texts
  = replicate (min (max_chunks - 1) (length texts)) true
    ++ replicate (length texts - (max_chunks - 1)) false.
Proof.
  rewrite abort_answers_from. generalize (length texts) as n. intros n.
  assert (H : ∀ n start,
            (λ k, negb (Nat.leb max_chunks k)) <$> seq start n
            = replicate (min (max_chunks - start) n) true
              ++ replicate (n - (max_chunks - start)) false).
  { clear. intros n. induction n as [|n IH]; intros start; simpl.
    - by rewrite Nat.min_0_r.
    - rewrite IH. destruct (Nat.leb max_chunks start) eqn:E.
      + apply Nat.leb_le in E.
        replace (max_chunks - start)%nat with 0%nat by lia.
        replace (max_chunks - S start)%nat with 0%nat by lia. simpl.
        by rewrite Nat.sub_0_r.
      + apply Nat.leb_gt in E.
        replace (max_chunks - start)%nat with (S (max_chunks - S start)) by lia.
        done. }
  apply H.
Qed.

Lemma limit_answers_from (limit : nat) (texts : list pystr) (n : nat) (out : pystr) :
  answers (limit_on_chunk limit) (n, out) texts
  = (λ k, negb (Nat.ltb limit (n + length (concat (take (S k) texts)))))
      <$> seq 0 (length texts).
Proof.
  revert n out. induction texts as [|t texts IH]; intros n out; [done|].
  cbn [answers]. unfold limit_on_chunk at 1. cbn [fst snd].
  assert (Htl : (λ k, negb (Nat.ltb limit (n + length t + length (concat (take (S k) texts)))))
                <$> seq 0 (length texts)
                = (λ k, negb (Nat.ltb limit (n + length (concat (take (S k) (t :: texts))))))
                  <$> seq 1 (length texts)).
  { rewrite <- (fmap_S_seq 0), <- list_fmap_compose. apply list_fmap_ext.
    intros i k _. simpl. rewrite length_app. by rewrite Nat.add_assoc. }
  destruct (Nat.ltb limit (n + length t)) eqn:E; rewrite IH, Htl;
    simpl; rewrite app_nil_r, E; done.
Qed.

(** X20: the limit callback of the demo answers the [k]-th chunk by
    whether the chunks so far are at most [max_output_length] characters in
    all; once it has asked to stop it asks so at every later chunk. *)
Theorem limit_on_chunk_answers (max_output_length : nat) (texts : list pystr) :
  answers (limit_on_chunk max_output_length) (0%nat, []) texts
  = (λ k, negb (Nat.ltb max_output_length (length (concat (take (S k) texts)))))
      <$> seq 0 (length texts)
  ∧ ∀ i j, (i ≤ j)%nat →
      answers (limit_on_chunk max_output_length) (0%nat, []) texts !! i = Some false →
      (j < length texts)%nat →
      answers (limit_on_chunk max_output_length) (0%nat, []) texts !! j = Some false.
Proof.
  rewrite limit_answers_from. split; [done|].
  intros i j Hij Hi Hj.
  rewrite list_lookup_fmap in *.
  rewrite lookup_seq_lt by done.
  destruct (seq 0 (length texts) !! i) as [k|] eqn:Hk; [|done].
  apply lookup_seq in Hk as [-> Hlt]. simpl in *.
  injection Hi as Hi. apply negb_false_iff, Nat.ltb_lt in Hi.
  f_equal. apply negb_false_iff, Nat.ltb_lt.
  eapply Nat.lt_le_trans; [exact Hi|].
  rewrite <- (take_drop (S i) (take (S j) texts)), take_take.
  replace (S i `min` S j)%nat with (S i) by lia.
  rewrite concat_app, length_app. lia.
Qed.

Lemma dict_get_Some {A} (d : gmap pystr A) (k : pystr) (v dflt : A) :
  d !! k = Some v → dict_get d k dflt = v.
Proof. unfold dict_get. by intros ->. Qed.

Section DeltaFacts.
Variable OPENAI_URL : pystr.
Variable requests_post : Request → PostOutcome.
Variables depth query_depth : nat.

(** X21: a body of one event in the documented shape, whose only choice has
    a delta with a true content, yields that content as it is, whatever its
    type, and the stream ends normally with nothing logged. *)
Theorem delta_content_is_yielded (self : OpenAIProvider) (prompt : pystr)
    (system_instruction : option pystr) (file_data : option (gmap pystr pystr))
    (r : Response) (line : pybytes) (data : pystr)
    (chunk choice delta : gmap pystr pyval) (content : pyval) :
  stream_receives OPENAI_URL requests_post self prompt system_instruction file_data r →
  lines r = [line] →
  broken r = None →
  decode_utf8 line = Ok (lit "data: " ++ data) →
  json_loads depth data = Ok (PDict chunk) →
  chunk !! lit "choices" = Some (PList [PDict choice]) →
  choice !! lit "delta" = Some (PDict delta) →
  delta !! lit "content" = Some content →
  truthy content = true →
  let run := stream OPENAI_URL requests_post depth self prompt system_instruction file_data in
  yielded run = [content] ∧ raised run = None ∧ logged run = [].
Proof.
  intros (payload & Hp & Hpost & Hok) Hl Hbr Hd Hj Hc Hdl Hct Ht. cbv zeta.
  rewrite (stream_of_loop _ _ _ _ _ _ _ _ _ Hp Hpost Hok), Hl, Hbr.
  assert (Hline : process_line depth line = Continue [content]).
  { unfold process_line. rewrite Hd. destruct line; [done|]. simpl negb. cbv iota.
    rewrite startswith_app. change (drop 6 (lit "data: " ++ data)) with data.
    unfold str_eqb. case_bool_decide as Hdone.
    { subst. destruct depth; vm_compute in Hj; discriminate. }
    rewrite Hj. result_simpl.
    unfold chunk_texts, py_contains, py_getitem, dict_getitem. result_simpl.
    rewrite Hc. rewrite bool_decide_eq_true_2 by eauto. result_simpl.
    cbn [omap list_omap]. unfold choice_delta_text.
    rewrite (dict_get_Some _ _ _ _ Hdl), (dict_get_Some _ _ _ _ Hct). by rewrite Ht. }
  simpl. rewrite Hline. done.
Qed.
End DeltaFacts.

Lemma delta_content_is_yielded_witness :
  let run := stream example_url
               (answering (streamed [event_line "data: {'choices':[{'delta':{'content':7}}]}"])) example_depth
               gpt4o_provider (lit "Hello") None None in
  yielded run = [PInt 7] ∧ raised run = None ∧ logged run = [].
Proof.
  exact (delta_content_is_yielded example_url
           (answering (streamed [event_line "data: {'choices':[{'delta':{'content':7}}]}"]))
           example_depth gpt4o_provider (lit "Hello") None None
           (streamed [event_line "data: {'choices':[{'delta':{'content':7}}]}"])
           (event_line "data: {'choices':[{'delta':{'content':7}}]}")
           (lit "{" ++ [34] ++ lit "choices" ++ [34] ++ lit ":[{" ++ [34] ++ lit "delta"
            ++ [34] ++ lit ":{" ++ [34] ++ lit "content" ++ [34] ++ lit ":7}}]}")
           (py_dict [ (lit "choices",
                       PList [PDict (py_dict [ (lit "delta",
                                                PDict (py_dict [ (lit "content", PInt 7) ])) ])]) ])
           (py_dict [ (lit "delta", PDict (py_dict [ (lit "content", PInt 7) ])) ])
           (py_dict [ (lit "content", PInt 7) ]) (PInt 7)
           (example_stream_receives
              (streamed [event_line "data: {'choices':[{'delta':{'content':7}}]}"]) eq_refl)
           eq_refl eq_refl eq_refl eq_refl eq_refl eq_refl eq_refl eq_refl).
Defined.

